(** * tela: the AI companion's workflow core, modelled and checked

    A shallow embedding of the parts of [ai_companion] that the specification
    makes promises about:

    - [graph/utils/helpers.py], [graph/utils/chains.py]: the reply parser
      that removes asterisk-delimited stage directions;
    - [modules/schedules/context_generation.py]: the activity lookup;
    - [modules/speech/text_to_speech.py], [modules/image/text_to_image.py]:
      input validation and error wrapping around the hosted back ends;
    - [graph/graph.py]: the workflow graph as the builder receives it;
    - [interfaces/telegram/telegram_response.py]: the webhook handler.

    Python values are modelled as follows.  A [str] is the list of its code
    points, an exception is a constructor of [exn], a call that may raise
    returns an [outcome], and code that talks to the outside world runs in
    the state-and-exception monad [M] over a log of the calls it made.  The
    hosted back ends, the libraries and the files of the repository that are
    not part of the sources at hand are section variables. *)

From Stdlib Require Import ZArith NArith Ascii String List Lia.
From stdpp Require Import gmap strings list.

Local Open Scope string_scope.
Local Open Scope list_scope.
Local Open Scope nat_scope.

(** ** Python strings *)

Module PyStr.

(** A Python [str] is a sequence of Unicode code points. *)
Abbreviation char := N (only parsing).
Abbreviation str := (list N) (only parsing).

(** A literal of the source, read as code points. *)
Definition py (s : string) : str :=
  map N_of_ascii (list_ascii_of_string s).

Definition asterisk : char := 42%N.
Definition newline : char := 10%N.

(** [len(s)] *)
Definition len (s : str) : Z := Z.of_nat (length s).

(** [str.isspace] on one character: the code points CPython's
    [_PyUnicode_IsWhitespace] accepts. *)
Definition isspace (c : char) : bool :=
  ((9 <=? c) && (c <=? 13) || (28 <=? c) && (c <=? 32)
   || (c =? 133) || (c =? 160) || (c =? 5760)
   || (8192 <=? c) && (c <=? 8202)
   || (c =? 8232) || (c =? 8233) || (c =? 8239) || (c =? 8287)
   || (c =? 12288))%N.

(** [s.lstrip()], [s.rstrip()] and [s.strip()] with no argument. *)
Fixpoint lstrip (s : str) : str :=
  match s with
  | c :: r => if isspace c then lstrip r else s
  | [] => []
  end.

Definition rstrip (s : str) : str := reverse (lstrip (reverse s)).

Definition strip (s : str) : str := rstrip (lstrip s).

(** Truth value of a string: [not s] holds of the empty string only. *)
Definition falsy (s : str) : bool :=
  match s with [] => true | _ => false end.

(** A text that is empty or consists of whitespace only. *)
Definition blank (s : str) : Prop := Forall (λ c, isspace c = true) s.

End PyStr.
Export PyStr.

(** ** The fragment of [re] that [helpers.py] uses *)

Module Re.

(** An item of a pattern: an escaped literal such as [\*], or the lazily
    repeated wildcard [.*?].  Without [re.DOTALL] the wildcard stands for
    every character except the line feed. *)
Inductive item :=
| Lit (c : char)
| AnyLazy.

Definition pattern := list item.

(** [match_len p s]: the number of characters the backtracking matcher
    consumes when [p] matches at the start of [s].  A lazy wildcard first
    tries to consume nothing and takes one more character each time the
    rest of the pattern fails. *)
Fixpoint match_len (p : pattern) (s : str) {struct p} : option nat :=
  match p with
  | [] => Some 0
  | Lit c :: p' =>
      match s with
      | x :: r => if (x =? c)%N then S <$> match_len p' r else None
      | [] => None
      end
  | AnyLazy :: p' =>
      (fix lazy (s : str) : option nat :=
         match match_len p' s with
         | Some n => Some n
         | None =>
             match s with
             | x :: r => if (x =? newline)%N then None else S <$> lazy r
             | [] => None
             end
         end) s
  end.

(** The scan of [re.sub(p, repl, s)]: at each position that is not inside
    the previous match the pattern is tried; a match is replaced by [repl]
    and the scan goes on behind it, otherwise the character is kept.
    [skip] counts the characters of the current match still to pass.  (The
    patterns used here match no empty string.) *)
Fixpoint sub_scan (p : pattern) (repl : str) (skip : nat) (s : str) : str :=
  match s with
  | [] => []
  | c :: r =>
      match skip with
      | S k => sub_scan p repl k r
      | O =>
          match match_len p s with
          | Some (S k) => repl ++ sub_scan p repl k r
          | _ => c :: sub_scan p repl 0 r
          end
      end
  end.

Definition sub (p : pattern) (repl : str) (s : str) : str :=
  sub_scan p repl 0 s.

End Re.

(** ** [graph/utils/helpers.py] and [graph/utils/chains.py] *)

Module Helpers.

(** The pattern [r"\*.*?\*"]. *)
Definition asterisk_span : Re.pattern :=
  [Re.Lit asterisk; Re.AnyLazy; Re.Lit asterisk].

(** [remove_asterisk_content(text)] *)
Definition remove_asterisk_content (text : str) : str :=
  strip (Re.sub asterisk_span [] text).

(** [StrOutputParser.parse] returns its argument. *)
Definition StrOutputParser_parse (text : str) : str := text.

(** [AsteriskRemovalParser.parse] *)
Definition AsteriskRemovalParser_parse (text : str) : str :=
  remove_asterisk_content (StrOutputParser_parse text).

End Helpers.

(** ** Exceptions and calls that may raise *)

Module Py.

(** The exceptions that occur: Python's own, the two of
    [core/exceptions.py] that the modelled code raises, and [Failure] for
    whatever exception a collaborator raises.  Each carries [str(e)]. *)
Inductive exn :=
| ValueError (msg : string)
| TypeError (msg : string)
| KeyError (msg : string)
| IndexError (msg : string)
| TextToSpeechError (msg : string)
| TextToImageError (msg : string)
| AttributeError (msg : string)
| Failure (msg : string).

(** [str(e)] *)
Definition exn_str (e : exn) : string :=
  match e with
  | ValueError m | TypeError m | KeyError m | IndexError m
  | TextToSpeechError m | TextToImageError m | AttributeError m
  | Failure m => m
  end.

(** What a call comes to: a value, or an exception. *)
Inductive outcome (A : Type) :=
| Returns (a : A)
| Raises (e : exn).
Arguments Returns {A} a.
Arguments Raises {A} e.

(** A computation over a world [W]: the outcome and the world it leaves. *)
Definition M (W A : Type) : Type := W -> outcome A * W.

Definition ret {W A} (a : A) : M W A := fun w => (Returns a, w).

Definition raise {W A} (e : exn) : M W A := fun w => (Raises e, w).

Definition bind {W A B} (m : M W A) (k : A -> M W B) : M W B :=
  fun w =>
    match m w with
    | (Returns a, w') => k a w'
    | (Raises e, w') => (Raises e, w')
    end.

(** [try: m except Exception as e: h e] *)
Definition try_except {W A} (m : M W A) (h : exn -> M W A) : M W A :=
  fun w =>
    match m w with
    | (Returns a, w') => (Returns a, w')
    | (Raises e, w') => h e w'
    end.

(** Lifts the outcome of a call that leaves the world alone. *)
Definition lift {W A} (o : outcome A) : M W A := fun w => (o, w).

(** Changes the world. *)
Definition modify {W} (f : W -> W) : M W unit := fun w => (Returns tt, f w).

End Py.
Export Py.

Notation "'let*' x ':=' m 'in' k" := (bind m (fun x => k))
  (at level 10, x name, m at level 100, k at level 200).
Notation "m ';;' k" := (bind m (fun _ => k))
  (at level 100, k at level 200, right associativity).

(** ** [graph/utils/chains.py] *)

Module Chains.

Section CharacterResponse.

(** [CHARACTER_CARD_PROMPT] of [core/prompts.py]. *)
Variable CHARACTER_CARD_PROMPT : list N.

(** The input the chain is run on, and the prompt handed to the model. *)
Variables Input PromptValue : Type.

(** [ChatPromptTemplate.from_messages([("system", system_message),
    MessagesPlaceholder(variable_name="messages")])], run on the input:
    the system message is a template, in which braces name variables of
    the input, so that building the template or filling it in may raise.
    And the chat model: the text it answers a prompt with, or the
    exception the call ends with. *)
Variable ChatPromptTemplate : list N -> Input -> outcome PromptValue.
Variable chat_model : PromptValue -> outcome (list N).

(** The system message of [get_character_response_chain(summary)]. *)
Definition system_message (summary : str) : str :=
  if falsy summary then CHARACTER_CARD_PROMPT
  else
    CHARACTER_CARD_PROMPT
    ++ [newline; newline]
    ++ py "Summary of conversations earlier between Tela and the user: "
    ++ summary.

(** The chain [prompt | model | AsteriskRemovalParser()] that
    [get_character_response_chain(summary)] returns, run on an input. *)
Definition get_character_response_chain (summary : str) (input : Input)
  : outcome (list N) :=
  match ChatPromptTemplate (system_message summary) input with
  | Returns prompt =>
      match chat_model prompt with
      | Returns text => Returns (Helpers.AsteriskRemovalParser_parse text)
      | Raises e => Raises e
      end
  | Raises e => Raises e
  end.

End CharacterResponse.

End Chains.

(** ** [modules/schedules/context_generation.py] *)

Module Schedules.

(** A [datetime.time] without time zone. *)
Record time := mk_time {
  hour : N;
  minute : N;
  second : N;
  microsecond : N
}.

(** Comparison of two times: by hour, then minute, second and
    microsecond. *)
Definition time_compare (a b : time) : comparison :=
  match (hour a ?= hour b)%N with
  | Eq =>
      match (minute a ?= minute b)%N with
      | Eq =>
          match (second a ?= second b)%N with
          | Eq => (microsecond a ?= microsecond b)%N
          | c => c
          end
      | c => c
      end
  | c => c
  end.

(** [a <= b] and [a > b] on times. *)
Definition time_le (a b : time) : bool :=
  match time_compare a b with Gt => false | _ => true end.

Definition time_gt (a b : time) : bool :=
  match time_compare a b with Gt => true | _ => false end.

(** [s.split("-")] for the one-character separator: the pieces between the
    separators, at least one. *)
Fixpoint split (sep : char) (s : str) : list str :=
  match s with
  | [] => [[]]
  | c :: r =>
      if (c =? sep)%N then [] :: split sep r
      else
        match split sep r with
        | piece :: pieces => (c :: piece) :: pieces
        | [] => [[c]]
        end
  end.

Section Strptime.

(** The decimal digits of the interpreter's Unicode database, which grows
    from version to version: each entry is the code point of a digit
    zero, and the nine code points behind it are the digits one to nine
    of the same script. *)
Variable zeros : list N.

(** [\d] in a pattern on [str]: any decimal digit, with the value [int]
    reads it as. *)
Definition digit (c : char) : option N :=
  match List.find (λ zero, (zero <=? c) && (c <? zero + 10))%N zeros with
  | Some zero => Some (c - zero)%N
  | None => None
  end.

(** A class of ASCII digits such as [[0-5]]: the digits up to [top]. *)
Definition digit_upto (top : N) (c : char) : option N :=
  if ((48 <=? c) && (c <=? 48 + top))%N then Some (c - 48)%N else None.

(** The alternatives of [strptime]'s directives, in the order of the
    regular expressions it builds: [%H] is [2[0-3]|[0-1]\d|\d] and [%M]
    is [[0-5]\d|\d].  Each yields the value read and the rest of the
    text. *)
Definition two_digits_H (s : str) : option (N * str) :=
  match s with
  | a :: b :: r =>
      if (a =? 50)%N then
        match digit_upto 3 b with
        | Some y => Some ((20 + y)%N, r)
        | None => None
        end
      else
        match digit_upto 1 a, digit b with
        | Some x, Some y => Some ((10 * x + y)%N, r)
        | _, _ => None
        end
  | _ => None
  end.

Definition two_digits_M (s : str) : option (N * str) :=
  match s with
  | a :: b :: r =>
      match digit_upto 5 a, digit b with
      | Some x, Some y => Some ((10 * x + y)%N, r)
      | _, _ => None
      end
  | _ => None
  end.

Definition one_digit (s : str) : option (N * str) :=
  match s with
  | a :: r => match digit a with Some x => Some (x, r) | None => None end
  | [] => None
  end.

(** The minutes and the end of the text. *)
Definition parse_M (s : str) : option N :=
  match two_digits_M s with
  | Some (m, []) => Some m
  | _ =>
      match one_digit s with
      | Some (m, []) => Some m
      | _ => None
      end
  end.

(** The colon and the minutes behind the hour. *)
Definition parse_colon_M (h : N) (s : str) : option time :=
  match s with
  | c :: r =>
      if (c =? 58)%N then
        match parse_M r with
        | Some m => Some (mk_time h m 0 0)
        | None => None
        end
      else None
  | [] => None
  end.

(** [datetime.strptime(s, "%H:%M").time()]; [None] stands for the
    [ValueError] of a text that does not match the format. *)
Definition strptime_HM (s : str) : option time :=
  match
    match two_digits_H s with
    | Some (h, r) => parse_colon_M h r
    | None => None
    end
  with
  | Some t => Some t
  | None =>
      match one_digit s with
      | Some (h, r) => parse_colon_M h r
      | None => None
      end
  end.

(** The body of [_parse_time_range(time_range)]: unpacking anything but
    two pieces raises, and so does a piece that is no time. *)
Definition parse_time_range_with (time_range : str) : outcome (time * time) :=
  match split 45%N time_range with
  | [start_str; end_str] =>
      match strptime_HM start_str with
      | Some start_time =>
          match strptime_HM end_str with
          | Some end_time => Returns (start_time, end_time)
          | None => Raises (ValueError "time data does not match format '%H:%M'")
          end
      | None => Raises (ValueError "time data does not match format '%H:%M'")
      end
  | [_] => Raises (ValueError "not enough values to unpack (expected 2, got 1)")
  | _ => Raises (ValueError "too many values to unpack (expected 2)")
  end.

End Strptime.

(** The decimal digits of Unicode 15.0, the database of CPython 3.12, the
    first version that reads the f-strings of the repository (a quote of
    the string's own kind inside a replacement field, as in
    [image_to_text.py], line 25). *)
Definition decimal_zeros : list N :=
  [48; 1632; 1776; 1984; 2406; 2534; 2662; 2790; 2918; 3046; 3174; 3302;
   3430; 3558; 3664; 3792; 3872; 4160; 4240; 6112; 6160; 6470; 6608; 6784;
   6800; 6992; 7088; 7232; 7248; 42528; 43216; 43264; 43472; 43504; 43600;
   44016; 65296; 66720; 68912; 69734; 69872; 69942; 70096; 70384; 70736;
   70864; 71248; 71360; 71472; 71904; 72016; 72784; 73040; 73120; 73552;
   92768; 92864; 93008; 120782; 120792; 120802; 120812; 120822; 123200;
   123632; 124144; 125264; 130032]%N.

(** [_parse_time_range(time_range)] *)
Definition _parse_time_range (time_range : str) : outcome (time * time) :=
  parse_time_range_with decimal_zeros time_range.

(** A day's schedule: the items of the dictionary in its iteration order,
    time range first, activity second. *)
Abbreviation day_schedule := (list (str * str)) (only parsing).

(** The loop of [get_current_activity] over [schedule.items()]. *)
Fixpoint scan_schedule (current_time : time) (items : day_schedule)
  : outcome (option str) :=
  match items with
  | [] => Returns None
  | (time_range, activity) :: rest =>
      match _parse_time_range time_range with
      | Raises e => Raises e
      | Returns (start_time, end_time) =>
          if time_gt start_time end_time then
            if time_le start_time current_time && time_le current_time end_time
            then Returns (Some activity)
            else scan_schedule current_time rest
          else
            if time_le start_time current_time && time_le current_time end_time
            then Returns (Some activity)
            else scan_schedule current_time rest
      end
  end.

Section ScheduleContextGenerator.

(** The seven tables of [core/schedules.py]. *)
Variables SUNDAY_SCHEDULE MONDAY_SCHEDULE TUESDAY_SCHEDULE
  WEDNESDAY_SCHEDULE THURSDAY_SCHEDULE FRIDAY_SCHEDULE
  SATURDAY_SCHEDULE : day_schedule.

(** The class attribute [SCHEDULE]. *)
Definition SCHEDULE : gmap Z (list (str * str)) :=
  <[0%Z := MONDAY_SCHEDULE]>
  (<[1%Z := TUESDAY_SCHEDULE]>
  (<[2%Z := WEDNESDAY_SCHEDULE]>
  (<[3%Z := THURSDAY_SCHEDULE]>
  (<[4%Z := FRIDAY_SCHEDULE]>
  (<[5%Z := SATURDAY_SCHEDULE]>
  (<[6%Z := SUNDAY_SCHEDULE]> ∅)))))).

(** [get_schedule_for_day(day)] *)
Definition get_schedule_for_day (day : Z) : day_schedule :=
  default [] (SCHEDULE !! day).

(** [datetime.time()] and [datetime.weekday()].  Line 1 imports the class
    [datetime] from the module of that name, so both are methods called on
    the class, with no instance to read a time or a day from: the call
    raises. *)
Definition datetime_time : outcome time :=
  Raises (TypeError "unbound method datetime.time() needs an argument").

Definition datetime_weekday : outcome Z :=
  Raises (TypeError "unbound method date.weekday() needs an argument").

(** [get_current_activity()] *)
Definition get_current_activity : outcome (option (list N)) :=
  match datetime_time with
  | Raises e => Raises e
  | Returns current_time =>
      match datetime_weekday with
      | Raises e => Raises e
      | Returns current_day =>
          let schedule := default [] (SCHEDULE !! current_day) in
          scan_schedule current_time schedule
      end
  end.

End ScheduleContextGenerator.

End Schedules.

(** ** [modules/speech/text_to_speech.py] *)

Module Speech.

Abbreviation bytes := (list Byte.byte) (only parsing).

(** What [synthesize] does to the outside: whether the ElevenLabs client
    exists ([self._client]), and the texts sent to it so far, oldest
    first. *)
Record world := mk_world {
  _client : bool;
  converted : list (list N)
}.

Section TextToSpeech.

(** The hosted service behind [client.text_to_speech.convert]: the
    chunks of audio it yields for a text, or the exception the call or
    the iteration ends with. *)
Variable convert : str -> outcome (list bytes).

(** The property [client]: created at its first use. *)
Definition client : M world unit :=
  modify (fun w => mk_world true (converted w)).

(** [self.client.text_to_speech.convert(..., text=text, ...)] followed by
    [b"".join(audio_generator)]. *)
Definition convert_and_join (text : str) : M world bytes :=
  client ;;
  modify (fun w => mk_world (_client w) (converted w ++ [text])) ;;
  let* audio_generator := lift (convert text) in
  ret (concat audio_generator).

(** [TextToSpeech.synthesize(text)] *)
Definition synthesize (text : str) : M world bytes :=
  if falsy (strip text) then
    raise (ValueError "Input text cannot be empty.")
  else if (len text >? 5000)%Z then
    raise (ValueError "Input length exceeds maximum length of 5000 characters.")
  else
    try_except
      (let* audio_bytes := convert_and_join text in
       match audio_bytes with
       | [] => raise (TextToSpeechError "Generated audio is empty")
       | _ => ret audio_bytes
       end)
      (fun e =>
         raise (TextToSpeechError
                  ("Text-to-speech conversion failed: " ++ exn_str e)%string)).

End TextToSpeech.

End Speech.

(** ** [modules/image/text_to_image.py] *)

Module Image.

Abbreviation bytes := (list Byte.byte) (only parsing).

(** One generated image of a response, and the response. *)
Record image := mk_image { b64_json : list N }.
Record response := mk_response { data : list image }.

(** What [generate_image] does to the outside: whether the Gemini client
    exists, the messages logged with [logger.info], the prompts sent to
    the image service and the files written, oldest first. *)
Record world := mk_world {
  _gemini_client : bool;
  logged : list (list N);
  generated : list (list N);
  written : list (list N * list Byte.byte)
}.

Section TextToImage.

(** The hosted service behind [models.generate_images], the decoder
    [base64.b64decode], and the file system behind [os.makedirs], [open]
    and [write] (what writing the bytes to a path comes to). *)
Variable generate_images : str -> outcome response.
Variable b64decode : str -> outcome bytes.
Variable write_file : str -> bytes -> outcome unit.

Definition logger_info (msg : str) : M world unit :=
  modify (fun w =>
    mk_world (_gemini_client w) (logged w ++ [msg]) (generated w) (written w)).

(** The property [gemini_client]: created at its first use. *)
Definition gemini_client : M world unit :=
  modify (fun w => mk_world true (logged w) (generated w) (written w)).

(** [self.gemini_client.models.generate_images(..., prompt=prompt, ...)] *)
Definition call_generate_images (prompt : str) : M world response :=
  gemini_client ;;
  modify (fun w =>
    mk_world (_gemini_client w) (logged w) (generated w ++ [prompt]) (written w)) ;;
  lift (generate_images prompt).

(** [response.data[0]] *)
Definition first_image (r : response) : outcome image :=
  match data r with
  | i :: _ => Returns i
  | [] => Raises (IndexError "list index out of range")
  end.

(** The body of [if output_path:]: the directory is made, the file is
    written, and then [self.logger] is called as if it were a function,
    which a [Logger] is not. *)
Definition save (output_path : str) (image_data : bytes) : M world unit :=
  lift (write_file output_path image_data) ;;
  modify (fun w =>
    mk_world (_gemini_client w) (logged w) (generated w)
             (written w ++ [(output_path, image_data)])) ;;
  raise (TypeError "'Logger' object is not callable").

(** [TextToImage.generate_image(prompt, output_path)] *)
Definition generate_image (prompt : str) (output_path : str) : M world bytes :=
  if falsy (strip prompt) then
    raise (ValueError "Prompt cannot be empty")
  else
    try_except
      (logger_info (py "Generating image for prompt: " ++ prompt) ;;
       let* response := call_generate_images prompt in
       let* first := lift (first_image response) in
       let* image_data := lift (b64decode (b64_json first)) in
       (if falsy output_path then ret tt else save output_path image_data) ;;
       ret image_data)
      (fun e =>
         raise (TextToImageError ("Failed to generate image: " ++ exn_str e)%string)).

End TextToImage.

End Image.

(** ** [graph/state.py] and [graph/graph.py] *)

Module Graph.

(** A message of the history: who wrote it, and its text. *)
Record message := mk_message { role : string; content : list N }.

(** [AICompanionState] *)
Record AICompanionState := mk_state {
  messages : list message;
  summary : list N;
  workflow : string;
  audio_buffer : list Byte.byte;
  image_path : list N;
  current_activity : list N;
  apply_activity : bool;
  memory_context : list N
}.

(** The node functions [graph.py] imports from [graph/nodes.py]. *)
Inductive node_fn :=
| image_node
| audio_node
| conversation_node
| context_injection_node
| memory_extraction_node
| memory_injection_node
| router_node.

#[export] Instance node_fn_eq_dec : EqDecision node_fn.
Proof. solve_decision. Defined.

(** A path function of a conditional edge: the name of the node to go to,
    read off the state. *)
Definition path_fn := AICompanionState -> string.

(** [langgraph.graph.START] and [END]. *)
Definition START : string := "__start__".
Definition END : string := "__end__".

(** What a [StateGraph] builder holds: the nodes by name, the set of
    edges, and for each source the path functions of its conditional edges
    by their name. *)
Record StateGraph := mk_graph {
  nodes : gmap string node_fn;
  edges : gset (string * string);
  branches : gmap string (gmap string path_fn)
}.

Definition empty_graph : StateGraph := mk_graph ∅ ∅ ∅.

(** [add_node(name, action)]: a name is taken once, and the two ends of
    the graph are no names of nodes. *)
Definition add_node (name : string) (action : node_fn) (g : StateGraph)
  : outcome StateGraph :=
  if bool_decide (is_Some (nodes g !! name)) then
    Raises (ValueError "Node already present")
  else if bool_decide (name = END) || bool_decide (name = START) then
    Raises (ValueError "Node is reserved")
  else Returns (mk_graph (<[name := action]> (nodes g)) (edges g) (branches g)).

(** [add_edge(start_key, end_key)]; neither key has to name a node yet. *)
Definition add_edge (start_key end_key : string) (g : StateGraph)
  : outcome StateGraph :=
  if bool_decide (start_key = END) then
    Raises (ValueError "END cannot be a start node")
  else if bool_decide (end_key = START) then
    Raises (ValueError "START cannot be an end node")
  else Returns (mk_graph (nodes g) ({[ (start_key, end_key) ]} ∪ edges g) (branches g)).

(** [add_conditional_edges(source, path)], [name] being [path.__name__];
    the source does not have to name a node yet. *)
Definition add_conditional_edges (source name : string) (path : path_fn)
    (g : StateGraph) : outcome StateGraph :=
  let of_source := default ∅ (branches g !! source) in
  if bool_decide (is_Some (of_source !! name)) then
    Raises (ValueError "Branch already exists for node")
  else
    Returns (mk_graph (nodes g) (edges g)
               (<[source := <[name := path]> of_source]> (branches g))).

(** One call after the other on the builder. *)
Definition and_then (o : outcome StateGraph)
    (f : StateGraph -> outcome StateGraph) : outcome StateGraph :=
  match o with
  | Returns g => f g
  | Raises e => Raises e
  end.

Section Workflow.

(** The two path functions [graph.py] imports from [graph/edges.py]. *)
Variables select_workflow should_summarize_conversation : path_fn.

(** [create_workflow_graph()] *)
Definition create_workflow_graph : outcome StateGraph :=
  and_then (and_then (and_then (and_then (and_then (and_then (and_then
  (and_then (and_then (and_then (and_then (and_then (and_then (and_then
  (and_then (and_then
    (Returns empty_graph)
    (add_node "memory_extraction_node" memory_extraction_node))
    (add_node "router_node" router_node))
    (add_node "context_injection_node" context_injection_node))
    (add_node "memory_injection_node" memory_injection_node))
    (add_node "conversation_node" conversation_node))
    (add_node "image_node" image_node))
    (add_node "audio_mode" audio_node))
    (add_edge START "memory_extraction_node"))
    (add_edge "memory_extraction_node" "router_node"))
    (add_edge "router_node" "context_injection_node"))
    (add_edge "context_injection_node" "memory_injection_node"))
    (add_conditional_edges "memory_injection_node" "select_workflow"
       select_workflow))
    (add_conditional_edges "conversation_node" "should_summarize_conversation"
       should_summarize_conversation))
    (add_conditional_edges "image_node" "should_summarize_conversation"
       should_summarize_conversation))
    (add_conditional_edges "audio_node" "should_summarize_conversation"
       should_summarize_conversation))
    (add_edge "summarize_conversation_node" END).

End Workflow.

(** The names an edge or a conditional edge starts at, and the names an
    edge ends at. *)
Definition sources (g : StateGraph) : gset string :=
  set_map fst (edges g) ∪ dom (branches g).

Definition targets (g : StateGraph) : gset string :=
  set_map snd (edges g).

(** Every name an edge or a conditional edge refers to is the name of a
    node (or the end of the graph it may stand for). *)
Definition endpoints_registered (g : StateGraph) : Prop :=
  (∀ s, s ∈ sources g → s = START ∨ is_Some (nodes g !! s))
  ∧ (∀ t, t ∈ targets g → t = END ∨ is_Some (nodes g !! t)).

(** [validate()], the check [compile()] starts with: an edge that starts
    at or ends in a name that is no node is refused, and so is a graph
    without an entry point. *)
Definition validate (g : StateGraph) : outcome StateGraph :=
  if bool_decide (set_Forall (λ s, s = START ∨ is_Some (nodes g !! s)) (sources g))
  then
    if bool_decide (START ∈ sources g) then
      if bool_decide (set_Forall (λ t, t = END ∨ is_Some (nodes g !! t)) (targets g))
      then Returns g
      else Raises (ValueError "Found edge ending at unknown node")
    else Raises (ValueError "Graph must have an entrypoint")
  else Raises (ValueError "Found edge starting at unknown node").

(** [builder.compile()] *)
Definition compile (builder : outcome StateGraph) : outcome StateGraph :=
  and_then builder validate.

(** The graph [create_workflow_graph()] returns. *)
Definition built (select_workflow should_summarize_conversation : path_fn)
  : StateGraph :=
  match create_workflow_graph select_workflow should_summarize_conversation with
  | Returns g => g
  | Raises _ => empty_graph
  end.

End Graph.

(** ** [interfaces/telegram/telegram_response.py] *)

Module Telegram.

Abbreviation bytes := (list Byte.byte) (only parsing).

#[local] Set Warnings "-register-all".

(** A value decoded from JSON. *)
Inductive json :=
| JNull
| JBool (b : bool)
| JNum (n : Z)
| JStr (s : list N)
| JArr (items : list json)
| JObj (fields : list (string * json)).

(** [p in s] on strings: [p] occurs in [s]. *)
Fixpoint starts_with (p s : list N) : bool :=
  match p, s with
  | [], _ => true
  | a :: p', b :: s' => (a =? b)%N && starts_with p' s'
  | _ :: _, [] => false
  end.

Fixpoint occurs_in (p s : list N) : bool :=
  starts_with p s
  || match s with
     | [] => false
     | _ :: r => occurs_in p r
     end.

(** [key in x] for a string [key]. *)
Definition contains (key : string) (x : json) : outcome bool :=
  match x with
  | JObj fields => Returns (bool_decide (key ∈ fields.*1))
  | JArr items =>
      Returns (existsb (λ j, match j with
                             | JStr s => bool_decide (s = py key)
                             | _ => false
                             end) items)
  | JStr s =>
      Returns (occurs_in (py key) s)
  | _ => Raises (TypeError "argument is not iterable")
  end.

(** [x[key]] for a string [key]. *)
Definition getitem (x : json) (key : string) : outcome json :=
  match x with
  | JObj fields =>
      match list_find (λ f, f.1 = key) (reverse fields) with
      | Some (_, (_, v)) => Returns v
      | None => Raises (KeyError key)
      end
  | JArr _ | JStr _ => Raises (TypeError "indices must be integers")
  | _ => Raises (TypeError "object is not subscriptable")
  end.

(** [x[0]]; the keys of a decoded object are strings. *)
Definition getitem0 (x : json) : outcome json :=
  match x with
  | JObj _ => Raises (KeyError "0")
  | JArr (j :: _) => Returns j
  | JStr (c :: _) => Returns (JStr [c])
  | JArr [] | JStr [] => Raises (IndexError "index out of range")
  | _ => Raises (TypeError "object is not subscriptable")
  end.

(** [x.get(key, "")] *)
Definition get_or_empty (x : json) (key : string) : outcome json :=
  match x with
  | JObj fields =>
      match list_find (λ f, f.1 = key) (reverse fields) with
      | Some (_, (_, v)) => Returns v
      | None => Returns (JStr [])
      end
  | _ => Raises (AttributeError "object has no attribute 'get'")
  end.

(** [content += text] for a string [text]. *)
Definition iadd_str (content : json) (text : list N) : outcome json :=
  match content with
  | JStr s => Returns (JStr (s ++ text))
  | JArr items => Returns (JArr (items ++ map (λ c, JStr [c]) text))
  | _ => Raises (TypeError "unsupported operand type(s) for +=")
  end.

(** Truth value. *)
Definition truthy (x : json) : bool :=
  match x with
  | JNull | JBool false | JNum 0%Z | JStr [] | JArr [] | JObj [] => false
  | _ => true
  end.

Record Request := mk_request {
  method : string;
  body : outcome json
}.

Record Response := mk_http_response {
  content : string;
  status_code : Z
}.

(** The addresses of the Bot API that the module calls. *)
Inductive url :=
| getFile
| file (media_path : json)
| sendMessage
| sendPhoto
| sendAudio.

(** The values of a state of the graph, as far as the handler reads them;
    each key may be missing. *)
Record values := mk_values {
  v_workflow : option string;
  v_last_message : option json;
  v_audio_buffer : option (list Byte.byte);
  v_image_path : option (list N)
}.

(** What [graph.aget_state(config=...)] evaluates to where it is not
    awaited: the coroutine of the call, which is never run.  A coroutine
    has no attribute [values]. *)
Inductive coroutine :=
| aget_state (thread_id : json).

Definition coroutine_values (c : coroutine) : outcome values :=
  Raises (AttributeError "'coroutine' object has no attribute 'values'").

(** What the handler does to the outside, oldest first. *)
Inductive event :=
| Get (u : url) (file_id : option json)
| Transcribe (audio : list Byte.byte)
| AnalyzeImage (image_data : list Byte.byte)
| GraphInvoke (content thread_id : json)
| ReadFile (path : list N)
| Post (u : url) (payload : list (string * json))
       (media : option (list Byte.byte))
| Log (msg : string).

Section Handler.

(** [SECRET_WEBHOOK_TOKEN], read from the environment when the module is
    loaded. *)
Variable SECRET_WEBHOOK_TOKEN : option (list N).

(** The collaborators: [httpx] ([get] with [raise_for_status], giving the
    decoded body and the raw content; [post], giving the status code),
    [speech_to_text.transcribe], [image_to_text.analyze_image], the
    compiled graph ([ainvoke]), and the file system. *)
Variable http_get : url -> option json -> outcome (outcome json * bytes).
Variable http_post :
  url -> list (string * json) -> option bytes -> outcome Z.
Variable transcribe : bytes -> outcome (list N).
Variable analyze_image : bytes -> outcome (list N).
Variable ainvoke : json -> json -> outcome unit.
Variable read_file : list N -> outcome bytes.

Abbreviation log := (list event) (only parsing).

Definition emit (e : event) : M log unit := modify (fun l => l ++ [e]).

(** The two requests [download_media] and [process_audio_message] make:
    the path of the file, then the file; the second request of
    [process_audio_message] passes [params] again. *)
Definition fetch (file_id : json) (params_again : bool) : M log bytes :=
  emit (Get getFile (Some file_id)) ;;
  let* metadata_response := lift (http_get getFile (Some file_id)) in
  let* metadata := lift metadata_response.1 in
  let* results := lift (getitem metadata "results") in
  let* media_path := lift (getitem results "file_path") in
  let params := if params_again then Some file_id else None in
  emit (Get (file media_path) params) ;;
  let* media_response := lift (http_get (file media_path) params) in
  ret media_response.2.

(** [download_media(media_id)] *)
Definition download_media (media_id : json) : M log bytes :=
  fetch media_id false.

(** [process_audio_message(msg_dict)] *)
Definition process_audio_message (msg_dict : json) : M log (list N) :=
  let* audio := lift (getitem msg_dict "audio") in
  let* audio_id := lift (getitem audio "file_id") in
  let* audio_data := fetch audio_id true in
  emit (Transcribe audio_data) ;;
  lift (transcribe audio_data).

(** [send_response(from_id, response_message, message_type,
    media_content)] *)
Definition send_response (from_id response_message : json)
    (message_type : string) (media_content : option bytes) : M log bool :=
  try_except
    (if bool_decide (message_type = "text") then
       let payload := [("chat_id", from_id); ("text", response_message)] in
       emit (Post sendMessage payload None) ;;
       let* status := lift (http_post sendMessage payload None) in
       ret (bool_decide (status = 200%Z))
     else if bool_decide (message_type = "image") then
       let payload :=
         ("chat_id", from_id)
         :: (if truthy response_message
             then [("caption", response_message)] else []) in
       emit (Post sendPhoto payload media_content) ;;
       let* status := lift (http_post sendPhoto payload media_content) in
       ret (bool_decide (status = 200%Z))
     else if bool_decide (message_type = "audio") then
       let payload := [("chat_id", from_id)] in
       emit (Post sendAudio payload media_content) ;;
       let* status := lift (http_post sendAudio payload media_content) in
       ret (bool_decide (status = 200%Z))
     else
       emit (Log "Unsupported message_type") ;;
       ret false)
    (fun e => emit (Log "Message send failed") ;; ret false).

(** The text of the message: transcribed audio, the caption of a photo
    with the analysis of the image appended, or the text itself. *)
Definition message_content (msg_dict : json) : M log json :=
  let* has_audio := lift (contains "audio" msg_dict) in
  if has_audio then
    let* text := process_audio_message msg_dict in
    ret (JStr text)
  else
    let* has_photo := lift (contains "photo" msg_dict) in
    if has_photo then
      let* caption := lift (get_or_empty msg_dict "caption") in
      let* photo := lift (getitem msg_dict "photo") in
      let* file_id := lift (getitem photo "file_id") in
      let* image_bytes := download_media file_id in
      try_except
        (emit (AnalyzeImage image_bytes) ;;
         let* description := lift (analyze_image image_bytes) in
         lift (iadd_str caption
                 (py "[Image Analysis: " ++ description ++ py "]")))
        (fun e => emit (Log "Failed to analyze the image") ;; ret caption)
    else
      lift (getitem msg_dict "text").

(** The part of the handler behind the check of the method: the update
    is read and run through the graph; line 73 then calls
    [graph.aget_state] without [await], and the lines behind it read the
    state off what that gives. *)
Definition process_update (request : Request) : M log Response :=
  try_except
    (let* update_payload := lift (body request) in
     let* has_message := lift (contains "message" update_payload) in
     if has_message then
       let* message := lift (getitem update_payload "message") in
       let* msg_dict := lift (getitem0 message) in
       let* sender := lift (getitem msg_dict "from") in
       let* from_id := lift (getitem sender "id") in
       let session_id := from_id in
       let* content := message_content msg_dict in
       emit (GraphInvoke content session_id) ;;
       lift (ainvoke content session_id) ;;
       let output_state := aget_state session_id in
       let* output_state := lift (coroutine_values output_state) in
       let workflow := default "conversation" (v_workflow output_state) in
       let* response_message :=
         lift (match v_last_message output_state with
               | Some m => Returns m
               | None => Raises (IndexError "list index out of range")
               end) in
       let* success :=
         if bool_decide (workflow = "audio") then
           let* audio_buffer :=
             lift (match v_audio_buffer output_state with
                   | Some b => Returns b
                   | None => Raises (KeyError "audio_buffer")
                   end) in
           send_response from_id response_message "audio" (Some audio_buffer)
         else if bool_decide (workflow = "image") then
           let* image_path :=
             lift (match v_image_path output_state with
                   | Some b => Returns b
                   | None => Raises (KeyError "image_path")
                   end) in
           emit (ReadFile image_path) ;;
           let* image_data := lift (read_file image_path) in
           send_response from_id response_message "image" (Some image_data)
         else
           send_response from_id response_message "text" None in
       if negb success then
         ret (mk_http_response "Failed to send message" 500)
       else
         ret (mk_http_response "Message processed" 200)
     else
       ret (mk_http_response "Unknown event type" 400))
    (fun e =>
       emit (Log "Error processing message") ;;
       ret (mk_http_response "Internal server error" 500)).

(** [telegram_handler(request, x_telegram_bot_api_secret_token)] *)
Definition telegram_handler (request : Request)
    (x_telegram_bot_api_secret_token : option (list N)) : M log Response :=
  if bool_decide (method request = "POST") then
    if bool_decide (x_telegram_bot_api_secret_token ≠ SECRET_WEBHOOK_TOKEN)
    then ret (mk_http_response "Token mismatch" 403)
    else ret (mk_http_response "Received Telegram data" 200)
  else process_update request.

(** The calls that run the workflow or answer the user. *)
Definition is_engine_call (e : event) : bool :=
  match e with
  | GraphInvoke _ _ | Post _ _ _ => true
  | _ => false
  end.

End Handler.

End Telegram.

(** ** [_validate_env_vars] of the three service classes *)

Module Env.

(** [REQUIRED_ENV_VARS] of [TextToImage], [ImageToText] and
    [TextToSpeech]. *)
Definition TextToImage_REQUIRED_ENV_VARS : list string :=
  ["GEMINI_API_KEY"; "GROQ_API_KEY"].
Definition ImageToText_REQUIRED_ENV_VARS : list string :=
  ["GROQ_API_KEY"].
Definition TextToSpeech_REQUIRED_ENV_VARS : list string :=
  ["ELEVENLABS_API_KEY"; "ELEVENLABS_VOICE_ID"].

Section Validate.

(** [os.getenv]: the value of a variable, if it is set. *)
Variable getenv : string -> option (list N).

(** [not os.getenv(var)] *)
Definition unset (var : string) : bool :=
  match getenv var with
  | Some (_ :: _) => false
  | _ => true
  end.

(** [", ".join(names)] *)
Fixpoint join (names : list string) : string :=
  match names with
  | [] => ""
  | [name] => name
  | name :: rest => (name ++ ", " ++ join rest)%string
  end.

(** [_validate_env_vars()] of a class with the given
    [REQUIRED_ENV_VARS] (in [TextToSpeech] the method is spelled
    [validate_env_vars]). *)
Definition _validate_env_vars (REQUIRED_ENV_VARS : list string)
  : outcome unit :=
  let missing_vars := List.filter unset REQUIRED_ENV_VARS in
  match missing_vars with
  | [] => Returns tt
  | _ =>
      Raises (ValueError
                ("Missing required environment variables: "
                 ++ join missing_vars)%string)
  end.

End Validate.

End Env.

(** ** [modules/image/image_to_text.py] *)

Module ImageToText.

(** [image_data]: a path, or the bytes of the image. *)
Inductive image_input :=
| Path (path : list N)
| Bytes (data : list Byte.byte).

(** A response of the vision model: the texts of its choices. *)
Record choice := mk_choice { content : list N }.
Record completion := mk_completion { choices : list choice }.

(** What can be raised inside [analyze_image], with the text [str(e)]
    gives: an exception of a collaborator, a [ValueError] of the method
    (its text holds the path given), and [ImageToTextError]. *)
Inductive raised :=
| Collaborator (e : exn)
| ValueError (msg : list N)
| ImageToTextError (msg : list N).

Definition raised_str (r : raised) : list N :=
  match r with
  | Collaborator e => py (exn_str e)
  | ValueError msg | ImageToTextError msg => msg
  end.

Inductive result (A : Type) :=
| Done (a : A)
| Raised (r : raised).
Arguments Done {A} a.
Arguments Raised {A} r.

(** What the method does to the outside: whether the Groq client exists,
    the image URLs sent to the model, and the messages logged. *)
Record world := mk_world {
  _client : bool;
  requested : list (list N);
  logged : list (list N)
}.

Section Analyze.

(** The file system ([os.path.exists], and [open] with [read]), the
    encoder [base64.b64encode(...).decode("utf-8")], and the vision model
    behind [chat.completions.create], called with the one message that
    holds the image URL. *)
Variable path_exists : list N -> bool.
Variable read_file : list N -> outcome (list Byte.byte).
Variable b64encode : list Byte.byte -> list N.
Variable create : list N -> outcome completion.

(** The bytes of the image. *)
Definition image_bytes_of (image_data : image_input)
  : result (list Byte.byte) :=
  match image_data with
  | Path path =>
      if path_exists path then
        match read_file path with
        | Returns image_bytes => Done image_bytes
        | Raises e => Raised (Collaborator e)
        end
      else Raised (ValueError (py "Image file not found: " ++ path))
  | Bytes image_bytes => Done image_bytes
  end.

(** The body of the [try] statement. *)
Definition analyze (image_data : image_input) (prompt : list N) (w : world)
  : result (list N) * world :=
  match image_bytes_of image_data with
  | Raised r => (Raised r, w)
  | Done [] => (Raised (ValueError (py "Image data cannot be empty")), w)
  | Done image_bytes =>
      let base64_image := b64encode image_bytes in
      let prompt :=
        if falsy prompt
        then py "Please describe what you see in this image in detail."
        else prompt in
      let url := py "data:image/jpeg;base64," ++ base64_image in
      let w := mk_world true (requested w ++ [url]) (logged w) in
      match create url with
      | Raises e => (Raised (Collaborator e), w)
      | Returns response =>
          match choices response with
          | [] =>
              (Raised (ImageToTextError
                         (py "No response received from the vision model.")),
               w)
          | first :: _ =>
              let description := content first in
              (Done description,
               mk_world (_client w) (requested w)
                 (logged w
                  ++ [py "Generated image description: " ++ description]))
          end
      end
  end.

(** [ImageToText.analyze_image(image_data, prompt)] *)
Definition analyze_image (image_data : image_input) (prompt : list N)
    (w : world) : result (list N) * world :=
  match analyze image_data prompt w with
  | (Done description, w') => (Done description, w')
  | (Raised r, w') =>
      (Raised (ImageToTextError (py "Failed to analyze image: " ++ raised_str r)),
       w')
  end.

End Analyze.

End ImageToText.

(** ** [interfaces/chainlit/app.py] *)

Module Chainlit.

(** An element of a message: an image by its path, audio by its content,
    or something else. *)
Inductive element :=
| Image (path : list N)
| Audio (content : list Byte.byte)
| Other (name : list N).

(** A [cl.Message]. *)
Record Message := mk_message {
  author : option string;
  content : list N;
  elements : list element
}.

(** An [io.BytesIO]: its name, its bytes and its position. *)
Record BytesIO := mk_buffer {
  name : option (list N);
  value : list Byte.byte;
  pos : nat
}.

(** [buffer.write(data)]: the bytes go in at the position, over what is
    there, and the position moves behind them. *)
Definition write (buffer : BytesIO) (data : list Byte.byte) : BytesIO :=
  mk_buffer (name buffer)
    (take (pos buffer) (value buffer)
     ++ replicate (pos buffer - length (value buffer)) Byte.x00
     ++ data
     ++ drop (pos buffer + length data) (value buffer))
    (pos buffer + length data).

(** [buffer.seek(0)] and [buffer.read()]. *)
Definition seek0 (buffer : BytesIO) : BytesIO :=
  mk_buffer (name buffer) (value buffer) 0.

Definition read (buffer : BytesIO) : list Byte.byte * BytesIO :=
  (drop (pos buffer) (value buffer),
   mk_buffer (name buffer) (value buffer)
     (Nat.max (pos buffer) (length (value buffer)))).

(** A chunk of [graph.astream(..., stream_mode="messages")]: the text of
    the message, whether it is an [AIMessageChunk], and the node named in
    its metadata, if any. *)
Record chunk := mk_chunk {
  chunk_content : list N;
  is_AIMessageChunk : bool;
  langgraph_node : option string
}.

(** The values of a state of the graph, as far as the handlers read
    them; each key may be missing. *)
Record values := mk_values {
  workflow : option string;
  messages : option (list (list N));
  audio_buffer : option (list Byte.byte);
  image_path : option (list N)
}.

(** An [InputAudioChunk]. *)
Record InputAudioChunk := mk_audio_chunk {
  isStart : bool;
  mimeType : list N;
  data : list Byte.byte
}.

(** The world of the handlers: the three keys of the user session, the
    tokens streamed and the messages sent to the user, the warnings
    logged, the contents handed to the graph with their thread, and the
    world of the speech service. *)
Record world := mk_world {
  thread_id : option Z;
  session_audio_buffer : option BytesIO;
  mime_type : option (list N);
  streamed : list (list N);
  sent : list Message;
  warnings : list string;
  graph_inputs : list (list N * option Z);
  speech : Speech.world
}.

Definition set_thread_id (v : Z) (w : world) : world :=
  mk_world (Some v) (session_audio_buffer w) (mime_type w) (streamed w)
    (sent w) (warnings w) (graph_inputs w) (speech w).

Definition set_audio_buffer (b : BytesIO) (w : world) : world :=
  mk_world (thread_id w) (Some b) (mime_type w) (streamed w)
    (sent w) (warnings w) (graph_inputs w) (speech w).

Definition set_mime_type (m : list N) (w : world) : world :=
  mk_world (thread_id w) (session_audio_buffer w) (Some m) (streamed w)
    (sent w) (warnings w) (graph_inputs w) (speech w).

Definition add_streamed (token : list N) (w : world) : world :=
  mk_world (thread_id w) (session_audio_buffer w) (mime_type w)
    (streamed w ++ [token]) (sent w) (warnings w) (graph_inputs w) (speech w).

Definition add_sent (m : Message) (w : world) : world :=
  mk_world (thread_id w) (session_audio_buffer w) (mime_type w) (streamed w)
    (sent w ++ [m]) (warnings w) (graph_inputs w) (speech w).

Definition add_warning (msg : string) (w : world) : world :=
  mk_world (thread_id w) (session_audio_buffer w) (mime_type w) (streamed w)
    (sent w) (warnings w ++ [msg]) (graph_inputs w) (speech w).

Definition add_graph_input (content : list N) (w : world) : world :=
  mk_world (thread_id w) (session_audio_buffer w) (mime_type w) (streamed w)
    (sent w) (warnings w) (graph_inputs w ++ [(content, thread_id w)])
    (speech w).

Definition set_speech (s : Speech.world) (w : world) : world :=
  mk_world (thread_id w) (session_audio_buffer w) (mime_type w) (streamed w)
    (sent w) (warnings w) (graph_inputs w) s.

(** [x[-1]] on a list. *)
Definition last_item {A : Type} (l : list A) : outcome A :=
  match last l with
  | Some x => Returns x
  | None => Raises (IndexError "list index out of range")
  end.

(** [output_state.values["messages"][-1].content] *)
Definition last_content (v : values) : outcome (list N) :=
  match messages v with
  | Some l => last_item l
  | None => Raises (KeyError "messages")
  end.

(** [d[key]] for a key that may be missing. *)
Definition item {A : Type} (key : string) (o : option A) : outcome A :=
  match o with
  | Some x => Returns x
  | None => Raises (KeyError key)
  end.

(** [on_chat_start()] *)
Definition on_chat_start : M world unit := modify (set_thread_id 1).

Section Handlers.

(** The collaborators: the file system, [image_to_text.analyze_image]
    (called with bytes and the one prompt of the handler),
    [speech_to_text.transcribe], the compiled graph ([astream]: the
    chunks it yields and the exception the iteration ends with, if any;
    [aget_state] and [ainvoke]: the values of the state), and the speech
    service behind [text_to_speech.synthesize]. *)
Variable read_file : list N -> outcome (list Byte.byte).
Variable analyze_image : list Byte.byte -> outcome (list N).
Variable transcribe : list Byte.byte -> outcome (list N).
Variable astream : list N -> option Z -> list chunk * option exn.
Variable aget_state : option Z -> outcome values.
Variable ainvoke : list N -> option Z -> outcome values.
Variable convert : list N -> outcome (list (list Byte.byte)).

(** The loop of [on_message] over the elements of the message: the
    content after it. *)
Fixpoint attach (elems : list element) (content : list N)
  : M world (list N) :=
  match elems with
  | [] => ret content
  | Image path :: rest =>
      let* image_bytes := lift (read_file path) in
      let* content :=
        try_except
          (let* description := lift (analyze_image image_bytes) in
           ret (newline :: py "[Image Analysis: " ++ description ++ py "]"))
          (fun e =>
             modify (add_warning
                       ("Failed to analyze image: " ++ exn_str e)%string) ;;
             ret content) in
      attach rest content
  | _ :: rest => attach rest content
  end.

(** The loop of [on_message] over the chunks of the stream: the text of
    [empty_msg] after it. *)
Fixpoint stream (chunks : list chunk) (text : list N) : M world (list N) :=
  match chunks with
  | [] => ret text
  | c :: rest =>
      let* node := lift (item "langgraph_node" (langgraph_node c)) in
      if bool_decide (node = "conversation_node") && is_AIMessageChunk c then
        modify (add_streamed (chunk_content c)) ;;
        stream rest (text ++ chunk_content c)
      else stream rest text
  end.

(** [on_message(message)] *)
Definition on_message (message : Message) : M world unit :=
  let* content := attach (elements message) (content message) in
  let* thread := (fun w => (Returns (thread_id w), w)) in
  modify (add_graph_input content) ;;
  let* text := stream (astream content thread).1 [] in
  (match (astream content thread).2 with
   | Some e => raise e
   | None => ret tt
   end) ;;
  let* output_state := lift (aget_state thread) in
  if bool_decide (workflow output_state = Some "audio") then
    let* response := lift (last_content output_state) in
    let* audio := lift (item "audio_buffer" (audio_buffer output_state)) in
    modify (add_sent (mk_message None response [Audio audio]))
  else if bool_decide (workflow output_state = Some "image") then
    let* response := lift (last_content output_state) in
    let* path := lift (item "image_path" (image_path output_state)) in
    modify (add_sent (mk_message None response [Image path]))
  else
    modify (add_sent (mk_message None text [])).

(** [chunk.mimeType.split("/")[1]] *)
Definition subtype (mime : list N) : outcome (list N) :=
  match Schedules.split 47%N mime with
  | _ :: second :: _ => Returns second
  | _ => Raises (IndexError "list index out of range")
  end.

(** [on_audio_chunk(chunk)] *)
Definition on_audio_chunk (c : InputAudioChunk) : M world unit :=
  (if isStart c then
     let* extension := lift (subtype (mimeType c)) in
     modify (set_audio_buffer
               (mk_buffer (Some (py "input_audio." ++ extension)) [] 0)) ;;
     modify (set_mime_type (mimeType c))
   else ret tt) ;;
  let* buffer :=
    (fun w =>
       (match session_audio_buffer w with
        | Some b => Returns b
        | None =>
            Raises (AttributeError
                      "'NoneType' object has no attribute 'write'")
        end, w)) in
  modify (set_audio_buffer (write buffer (data c))).

(** [text_to_speech.synthesize(text)] in the world of the handlers. *)
Definition synthesize (text : list N) : M world (list Byte.byte) :=
  fun w =>
    let r := Speech.synthesize convert text (speech w) in
    (r.1, set_speech r.2 w).

(** [on_audio_end(elements)] *)
Definition on_audio_end (elems : list element) : M world unit :=
  let* buffer :=
    (fun w =>
       (match session_audio_buffer w with
        | Some b => Returns b
        | None =>
            Raises (AttributeError
                      "'NoneType' object has no attribute 'seek'")
        end, w)) in
  let audio_data := (read (seek0 buffer)).1 in
  modify (set_audio_buffer (read (seek0 buffer)).2) ;;
  modify (add_sent (mk_message (Some "You") [] (Audio audio_data :: elems))) ;;
  let* transcription := lift (transcribe audio_data) in
  let* thread := (fun w => (Returns (thread_id w), w)) in
  modify (add_graph_input transcription) ;;
  let* output_state := lift (ainvoke transcription thread) in
  let* reply := lift (last_content output_state) in
  let* audio := synthesize reply in
  let* reply_again := lift (last_content output_state) in
  modify (add_sent (mk_message None reply_again [Audio audio])).

End Handlers.

End Chainlit.

(** * The vocabulary of the properties *)

(** ** Spans of asterisks *)

Module ReplyParser.
Import Helpers.

(** Behind an opening asterisk: the number of characters up to and
    including the next asterisk, if it comes before a line feed. *)
Fixpoint closing (s : str) : option nat :=
  match s with
  | [] => None
  | x :: r =>
      if (x =? asterisk)%N then Some 1
      else if (x =? newline)%N then None
      else S <$> closing r
  end.

(** The text with its spans removed, before it is stripped. *)
Definition scrub (s : str) : str := Re.sub asterisk_span [] s.

(** A span in the sense of the specification: two asterisks with any text
    between them; and a span without a line feed between the two. *)
Definition has_span (s : str) : Prop :=
  ∃ a b c, s = a ++ asterisk :: b ++ asterisk :: c.

Definition has_line_span (s : str) : Prop :=
  ∃ a b c, s = a ++ asterisk :: b ++ asterisk :: c ∧ newline ∉ b.

(** No whitespace at either end. *)
Definition trimmed (s : str) : Prop :=
  ∀ c, head s = Some c ∨ last s = Some c → isspace c = false.

(** The amended claim in its words.  The text is read from the left: an
    asterisk that another asterisk follows before the next line feed is
    removed together with everything up to and including that asterisk,
    and reading goes on behind it; every other character stays.  [fuel]
    bounds the characters still to read. *)
Fixpoint remove_line_spans (fuel : nat) (s : str) : str :=
  match fuel, s with
  | S fuel', c :: r =>
      if (c =? asterisk)%N then
        match closing r with
        | Some n => remove_line_spans fuel' (drop n r)
        | None => c :: remove_line_spans fuel' r
        end
      else c :: remove_line_spans fuel' r
  | _, _ => []
  end.

Definition without_line_spans (s : str) : str :=
  remove_line_spans (length s) s.

(** At most one asterisk on each line; [seen] tells whether the line at
    hand has shown one already. *)
Fixpoint one_per_line (seen : bool) (s : str) : bool :=
  match s with
  | [] => true
  | x :: r =>
      if (x =? newline)%N then one_per_line false r
      else if (x =? asterisk)%N then
        if seen then false else one_per_line true r
      else one_per_line seen r
  end.

End ReplyParser.

(** ** Ranges of a schedule *)

Module Activity.
Import Schedules.

(** A time inside a range that wraps midnight: not before its start, or
    not after its end. *)
Definition inside_wrapped (start_time end_time t : time) : bool :=
  time_le start_time t || time_le t end_time.

End Activity.

(** Splits the comparisons of the fields of two times into their cases. *)
Ltac compare_fields :=
  unfold Schedules.time_le, Schedules.time_gt, Schedules.time_compare;
  repeat match goal with
         | |- context [(?a ?= ?b)%N] => destruct (N.compare_spec a b)
         end;
  try reflexivity; try discriminate; try lia.

(** ** Time ranges as text *)

Module TimeFormat.
Import Schedules.

(** A number below 100 in two decimal digits, a time of day as [HH:MM],
    and a range as [HH:MM-HH:MM], the form of the keys of the tables. *)
Definition two_digit (n : N) : list N :=
  [(48 + n / 10)%N; (48 + n mod 10)%N].

Definition format_HM (h m : N) : list N :=
  two_digit h ++ [58%N] ++ two_digit m.

Definition format_range (h1 m1 h2 m2 : N) : list N :=
  format_HM h1 m1 ++ [45%N] ++ format_HM h2 m2.

(** The number of dashes of a text. *)
Definition dashes (s : list N) : nat :=
  length (filter (λ c, c = 45%N) s).

(** A time as [strptime] with the format [%H:%M] gives it. *)
Definition clock_time (t : time) : Prop :=
  (hour t < 24)%N ∧ (minute t < 60)%N ∧ second t = 0%N ∧ microsecond t = 0%N.

End TimeFormat.

(** ** What a computation may return *)

Module Effects.



End Effects.

(** ** Messages of the chat interface *)

Module ChainlitWords.
Import Chainlit.

(** The content [on_message] makes of a description of an image. *)
Definition analysis_text (description : list N) : list N :=
  newline :: py "[Image Analysis: " ++ description ++ py "]".

(** The descriptions of the images among the elements whose file could be
    read and whose analysis succeeded, in the order of the elements. *)
Definition analysed (read_file : list N → outcome (list Byte.byte))
    (analyze_image : list Byte.byte → outcome (list N))
    (elems : list element) : list (list N) :=
  omap (λ e, match e with
             | Image path =>
                 match read_file path with
                 | Returns image_bytes =>
                     match analyze_image image_bytes with
                     | Returns description => Some description
                     | Raises _ => None
                     end
                 | Raises _ => None
                 end
             | _ => None
             end) elems.

(** The texts of the chunks that the conversation node produced as
    [AIMessageChunk]s, in the order of the stream. *)
Definition conversation_tokens (chunks : list chunk) : list (list N) :=
  chunk_content
    <$> List.filter
          (λ c, bool_decide (langgraph_node c = Some "conversation_node")
                && is_AIMessageChunk c) chunks.

(** The chunks of a recording, handled one after the other. *)
Fixpoint feed (chunks : list InputAudioChunk) : M world unit :=
  match chunks with
  | [] => ret tt
  | c :: rest => on_audio_chunk c ;; feed rest
  end.

End ChainlitWords.

(** ** Events of the webhook *)

Module TelegramWords.
Import Telegram.


End TelegramWords.

(** * Properties *)

(** ** The reply parser *)

Example remove_asterisk_content_ex1 :
  Helpers.remove_asterisk_content (py "*waves* Hi there! *smiles*") = py "Hi there!".
Proof. vm_compute. reflexivity. Qed.

Example remove_asterisk_content_ex2 :
  Helpers.remove_asterisk_content [42; 97; 10; 98; 42]%N = [42; 97; 10; 98; 42]%N.
Proof. vm_compute. reflexivity. Qed.

Example remove_asterisk_content_ex3 :
  Helpers.remove_asterisk_content (py "a*b*c*d") = py "ac*d".
Proof. vm_compute. reflexivity. Qed.

Section ReplyParserFacts.
Import Helpers ReplyParser.

Lemma match_len_asterisk_span (c : N) (r : list N) :
  Re.match_len asterisk_span (c :: r)
  = if (c =? asterisk)%N then S <$> closing r else None.
Proof.
  unfold asterisk_span. cbn [Re.match_len].
  destruct (c =? asterisk)%N; [|reflexivity]. f_equal.
  induction r as [|x r IH]; [reflexivity|].
  cbn [closing]. destruct (x =? asterisk)%N; [reflexivity|].
  destruct (x =? newline)%N; [reflexivity|].
  now rewrite IH.
Qed.

Lemma sub_scan_skip (p : Re.pattern) (repl : list N) (k : nat) (s : list N) :
  Re.sub_scan p repl k s = Re.sub_scan p repl 0 (drop k s).
Proof.
  revert k. induction s as [|c r IH]; intros [|k]; try reflexivity.
  cbn [Re.sub_scan drop]. apply IH.
Qed.

Lemma closing_pos (s : list N) (n : nat) : closing s = Some n → (0 < n ≤ length s)%nat.
Proof.
  revert n. induction s as [|x r IH]; intros n; cbn [closing]; [discriminate|].
  destruct (x =? asterisk)%N; [intros [= <-]; cbn; lia|].
  destruct (x =? newline)%N; [discriminate|].
  destruct (closing r) as [m|]; [|discriminate].
  intros [= <-]. specialize (IH m eq_refl). cbn. lia.
Qed.

Lemma scrub_nil : scrub [] = [].
Proof. reflexivity. Qed.

Lemma scrub_cons (c : N) (r : list N) :
  scrub (c :: r)
  = if (c =? asterisk)%N then
      match closing r with
      | Some n => scrub (drop n r)
      | None => c :: scrub r
      end
    else c :: scrub r.
Proof.
  unfold scrub, Re.sub. cbn [Re.sub_scan].
  rewrite match_len_asterisk_span.
  destruct (c =? asterisk)%N; [|reflexivity].
  destruct (closing r) as [n|] eqn:E; [|reflexivity].
  cbn [fmap option_fmap option_map app]. apply sub_scan_skip.
Qed.

End ReplyParserFacts.

Section ReplyParserProofs.
Import Helpers ReplyParser.

Lemma one_per_line_scrub (n : nat) :
  ∀ s : list N, (length s ≤ n)%nat →
    one_per_line false (scrub s) = true
    ∧ (closing s = None → one_per_line true (scrub s) = true).
Proof.
  induction n as [|n IH]; intros [|c r] Hlen; cbn [length] in Hlen;
    try (split; reflexivity); try lia.
  assert (Hr : length r ≤ n) by lia.
  rewrite scrub_cons. cbn [closing].
  destruct (c =? asterisk)%N eqn:Ec.
  - apply N.eqb_eq in Ec. subst c.
    destruct (closing r) as [k|] eqn:Ek.
    + split; [|discriminate].
      apply IH. rewrite length_drop. lia.
    + split; [|discriminate].
      cbn [one_per_line]. change (asterisk =? newline)%N with false.
      rewrite N.eqb_refl. destruct (IH r Hr) as [_ H2]. now apply H2.
  - cbn [one_per_line]. rewrite Ec.
    destruct (c =? newline)%N eqn:En.
    + destruct (IH r Hr) as [H1 _]. split; auto.
    + destruct (IH r Hr) as [H1 H2]. split; [exact H1|].
      destruct (closing r); [discriminate|auto].
Qed.

Lemma one_per_line_second (b c : list N) :
  newline ∉ b → one_per_line true (b ++ asterisk :: c) = false.
Proof.
  induction b as [|x b IH]; intros Hb; cbn [app one_per_line].
  - change (asterisk =? newline)%N with false. now rewrite N.eqb_refl.
  - destruct (x =? newline)%N eqn:En.
    + apply N.eqb_eq in En. subst x. exfalso. apply Hb. left.
    + destruct (x =? asterisk)%N; [reflexivity|].
      apply IH. intros H. apply Hb. now right.
Qed.

Lemma one_per_line_span (s : list N) (seen : bool) :
  has_line_span s → one_per_line seen s = false.
Proof.
  intros (a & b & c & -> & Hb). revert seen.
  induction a as [|x a IH]; intros seen; cbn [app one_per_line].
  - change (asterisk =? newline)%N with false. rewrite N.eqb_refl.
    destruct seen; [reflexivity|]. now apply one_per_line_second.
  - destruct (x =? newline)%N; [apply IH|].
    destruct (x =? asterisk)%N; [|apply IH].
    destruct seen; [reflexivity|apply IH].
Qed.

Lemma scrub_no_line_span (s : list N) : ¬ has_line_span (scrub s).
Proof.
  intros H. apply (one_per_line_span _ false) in H.
  destruct (one_per_line_scrub (List.length s) s (le_n _)) as [H1 _]. congruence.
Qed.

(** What [strip] keeps is a piece of the text. *)
Lemma lstrip_suffix (s : list N) : ∃ pre, s = pre ++ lstrip s.
Proof.
  induction s as [|c r [pre IH]]; [now exists []|].
  cbn [lstrip]. destruct (isspace c).
  - exists (c :: pre). cbn. now f_equal.
  - now exists [].
Qed.

Lemma rstrip_prefix (s : list N) : ∃ post, s = rstrip s ++ post.
Proof.
  unfold rstrip. destruct (lstrip_suffix (reverse s)) as [pre H].
  exists (reverse pre).
  rewrite <- reverse_app, <- H. now rewrite reverse_involutive.
Qed.

Lemma strip_infix (s : list N) : ∃ pre post, s = pre ++ strip s ++ post.
Proof.
  unfold strip. destruct (lstrip_suffix s) as [pre H].
  destruct (rstrip_prefix (lstrip s)) as [post H'].
  exists pre, post. now rewrite <- H', <- H.
Qed.

Lemma strip_no_line_span (s : list N) :
  ¬ has_line_span s → ¬ has_line_span (strip s).
Proof.
  intros Hs (a & b & c & E & Hb). apply Hs.
  destruct (strip_infix s) as (pre & post & H).
  exists (pre ++ a), b, (c ++ post). split; [|exact Hb].
  rewrite E in H. rewrite H at 1.
  rewrite <- !app_assoc. cbn. rewrite <- !app_assoc. reflexivity.
Qed.

Lemma lstrip_head (s : list N) (c : N) :
  head (lstrip s) = Some c → isspace c = false.
Proof.
  induction s as [|x r IH]; cbn [lstrip]; [discriminate|].
  destruct (isspace x) eqn:E; [exact IH|]. now intros [= <-].
Qed.

Lemma rstrip_last (s : list N) (c : N) :
  last (rstrip s) = Some c → isspace c = false.
Proof.
  unfold rstrip. rewrite last_reverse. apply lstrip_head.
Qed.

Lemma rstrip_head (s : list N) (c : N) :
  head (rstrip s) = Some c → head s = Some c.
Proof.
  destruct (rstrip_prefix s) as [post H]. intros Hc.
  rewrite H. destruct (rstrip s); [discriminate|exact Hc].
Qed.

Lemma strip_trimmed (s : list N) : trimmed (strip s).
Proof.
  intros c [H|H].
  - apply rstrip_head in H. now apply lstrip_head in H.
  - now apply rstrip_last in H.
Qed.

(** A text all of whose characters are whitespace strips to nothing, and
    only such a text does. *)
Lemma lstrip_nil (s : list N) :
  lstrip s = [] ↔ Forall (λ c, isspace c = true) s.
Proof.
  induction s as [|c r IH]; cbn [lstrip]; [split; auto|].
  destruct (isspace c) eqn:E.
  - rewrite IH. split; [now constructor|now inversion 1].
  - split; [discriminate|]. inversion 1; congruence.
Qed.

Lemma strip_nil (s : list N) :
  strip s = [] ↔ Forall (λ c, isspace c = true) s.
Proof.
  unfold strip, rstrip. split.
  - intros H. apply lstrip_nil.
    destruct (lstrip s) as [|c r] eqn:E; [reflexivity|].
    assert (Hr : lstrip (reverse (c :: r)) = []).
    { rewrite <- (reverse_involutive (lstrip _)), H. reflexivity. }
    apply lstrip_nil in Hr. rewrite Forall_reverse in Hr.
    inversion Hr as [|? ? Hc _]; subst.
    assert (Hh : head (lstrip s) = Some c) by now rewrite E.
    apply lstrip_head in Hh. congruence.
  - intros H. apply lstrip_nil in H. now rewrite H.
Qed.

End ReplyParserProofs.

Section ReplyParserClaims.
Import Helpers ReplyParser.

Lemma closing_span (mid post : list N) :
  asterisk ∉ mid → newline ∉ mid →
  closing (mid ++ asterisk :: post) = Some (S (length mid)).
Proof.
  induction mid as [|x mid IH]; intros Ha Hn; cbn [app closing length].
  - now rewrite N.eqb_refl.
  - destruct (x =? asterisk)%N eqn:Ea.
    { apply N.eqb_eq in Ea. subst x. exfalso. apply Ha. left. }
    destruct (x =? newline)%N eqn:En.
    { apply N.eqb_eq in En. subst x. exfalso. apply Hn. left. }
    rewrite IH; [reflexivity| |]; intros H; [apply Ha|apply Hn]; now right.
Qed.

(** A span on one line is removed, and the scan goes on behind it. *)
Lemma scrub_span (pre mid post : list N) :
  asterisk ∉ pre → asterisk ∉ mid → newline ∉ mid →
  scrub (pre ++ asterisk :: mid ++ asterisk :: post) = pre ++ scrub post.
Proof.
  intros Hpre Ha Hn. induction pre as [|x pre IH]; cbn [app].
  - rewrite scrub_cons, N.eqb_refl, closing_span by assumption.
    f_equal.
    replace (mid ++ asterisk :: post) with ((mid ++ [asterisk]) ++ post)
      by (rewrite <- app_assoc; reflexivity).
    rewrite drop_app_length'; [reflexivity|]. rewrite length_app. cbn. lia.
  - rewrite scrub_cons.
    destruct (x =? asterisk)%N eqn:Ea.
    { apply N.eqb_eq in Ea. subst x. exfalso. apply Hpre. left. }
    f_equal. apply IH. intros H. apply Hpre. now right.
Qed.

(** A text without asterisks is left as it is. *)
Lemma scrub_plain (s : list N) : asterisk ∉ s → scrub s = s.
Proof.
  induction s as [|x s IH]; intros Hs; [reflexivity|].
  rewrite scrub_cons.
  destruct (x =? asterisk)%N eqn:Ea.
  { apply N.eqb_eq in Ea. subst x. exfalso. apply Hs. left. }
  f_equal. apply IH. intros H. apply Hs. now right.
Qed.

(** C7, as the specification states it, fails: a pair of asterisks with a
    line feed between them comes out of the parser as it went in. *)
Lemma asterisk_span_across_lines_is_kept :
  ¬ (∀ text : list N, ¬ has_span (remove_asterisk_content text)).
Proof.
  intros H. apply (H [42; 97; 10; 98; 42]%N).
  exists [], [97; 10; 98]%N, []. vm_compute. reflexivity.
Qed.

(** The parser as the regular expression runs it and the parser as the
    amended claim words it remove the same. *)
Lemma remove_line_spans_scrub (fuel : nat) :
  ∀ s : list N, (length s ≤ fuel)%nat → remove_line_spans fuel s = scrub s.
Proof.
  induction fuel as [|fuel IH]; intros [|c r] Hlen; cbn [length] in Hlen;
    try reflexivity; try lia.
  rewrite scrub_cons. cbn [remove_line_spans].
  destruct (c =? asterisk)%N.
  - destruct (closing r) as [n|] eqn:E.
    + apply IH. rewrite length_drop. lia.
    + f_equal. apply IH. lia.
  - f_equal. apply IH. lia.
Qed.

(** C7, amended: a reply of the chain of the conversation path is the
    text the model returned for the prompt, run through the reply parser;
    and the parser, reading the text from the left, removes every span
    that runs from an asterisk to the next asterisk behind it when no line
    feed lies between the two, keeps every other character, and strips the
    result: what it returns has no two asterisks left without a line feed
    between them and no whitespace at either end. *)
Theorem reply_parser_removes_line_spans :
  ∀ (CHARACTER_CARD_PROMPT : list N) (Input PromptValue : Type)
    (ChatPromptTemplate : list N → Input → outcome PromptValue)
    (chat_model : PromptValue → outcome (list N))
    (summary : list N) (input : Input),
    (∀ reply : list N,
       Chains.get_character_response_chain CHARACTER_CARD_PROMPT Input
         PromptValue ChatPromptTemplate chat_model summary input
       = Returns reply
       ↔ ∃ prompt text,
           ChatPromptTemplate
             (Chains.system_message CHARACTER_CARD_PROMPT summary) input
           = Returns prompt
           ∧ chat_model prompt = Returns text
           ∧ reply = strip (without_line_spans text))
    ∧ ∀ text : list N,
        AsteriskRemovalParser_parse text = strip (without_line_spans text)
        ∧ ¬ has_line_span (AsteriskRemovalParser_parse text)
        ∧ trimmed (AsteriskRemovalParser_parse text).
Proof.
  intros CARD Input PromptValue template chat_model summary input.
  assert (Hparse : ∀ text : list N,
            AsteriskRemovalParser_parse text
            = strip (without_line_spans text)).
  { intros text.
    unfold AsteriskRemovalParser_parse, StrOutputParser_parse,
      remove_asterisk_content, without_line_spans.
    fold (scrub text). now rewrite remove_line_spans_scrub. }
  split.
  - intros reply. unfold Chains.get_character_response_chain. split.
    + destruct (template _ input) as [prompt|e] eqn:Ep; [|discriminate].
      destruct (chat_model prompt) as [text|e] eqn:Et; [|discriminate].
      intros [= <-]. exists prompt, text. now rewrite Hparse.
    + intros (prompt & text & -> & -> & ->). now rewrite Hparse.
  - intros text. split; [apply Hparse|].
    unfold AsteriskRemovalParser_parse, StrOutputParser_parse,
      remove_asterisk_content. fold (scrub text). split.
    + apply strip_no_line_span, scrub_no_line_span.
    + apply strip_trimmed.
Qed.

Lemma reply_parser_removes_line_spans_witness :
  Chains.get_character_response_chain (py "You are Tela.") unit (list N)
    (λ system _, Returns system)
    (λ _, Returns (py "*waves* Hi *from" ++ newline :: py "afar there "))
    [] tt
  = Returns (py "Hi *from" ++ newline :: py "afar there").
Proof.
  apply (proj1 (reply_parser_removes_line_spans (py "You are Tela.") unit
                  (list N) (λ system _, Returns system)
                  (λ _, Returns (py "*waves* Hi *from" ++ newline :: py "afar there "))
                  [] tt)).
  exists (py "You are Tela."),
    (py "*waves* Hi *from" ++ newline :: py "afar there ").
  split; [reflexivity|]. split; [reflexivity|]. vm_compute. reflexivity.
Defined.

End ReplyParserClaims.

(** ** The activity lookup *)

Section TimeOrder.
Import Schedules.

Lemma time_le_refl (t : time) : time_le t t = true.
Proof. unfold time_le, time_compare. now rewrite !N.compare_refl. Qed.

Lemma time_le_gt (a b : time) : time_le a b = negb (time_gt a b).
Proof. unfold time_le, time_gt. now destruct (time_compare a b). Qed.

Lemma time_le_trans (a b c : time) :
  time_le a b = true → time_le b c = true → time_le a c = true.
Proof.
  destruct a as [h1 m1 s1 u1], b as [h2 m2 s2 u2], c as [h3 m3 s3 u3].
  cbn [hour minute second microsecond]. compare_fields.
Qed.

End TimeOrder.

Section ActivityClaims.
Import Schedules Activity.

Lemma wrapping_range_never_matches (s e t : time) :
  time_gt s e = true → time_le s t && time_le t e = false.
Proof.
  intros Hgt. destruct (time_le s t) eqn:H1; [|reflexivity].
  destruct (time_le t e) eqn:H2; [|reflexivity].
  pose proof (time_le_trans _ _ _ H1 H2) as H.
  rewrite time_le_gt, Hgt in H. discriminate.
Qed.

(** The call stops at its first line, whatever the tables hold. *)
Lemma get_current_activity_raises
    (SUN MON TUE WED THU FRI SAT : list (list N * list N)) :
  get_current_activity SUN MON TUE WED THU FRI SAT
  = Raises (TypeError "unbound method datetime.time() needs an argument").
Proof. reflexivity. Qed.

(** C2: [get_current_activity] returns the activity of a range that wraps
    midnight at no time.  As written, it raises [TypeError] at line 41 on
    every call, whatever the tables hold.  And the loop of lines 46 to 56,
    for whatever current time it were run, passes over every range whose
    start is later than its end: with the range 23:00-01:00 alone in the
    table it ends in none at 23:30 and at 00:30, both inside the
    interval. *)
Theorem midnight_range_is_never_matched :
  ∀ (SUN MON TUE WED THU FRI SAT : list (list N * list N)),
    get_current_activity SUN MON TUE WED THU FRI SAT
    = Raises (TypeError "unbound method datetime.time() needs an argument")
    ∧ (∀ (time_range activity : list N) (start_time end_time : time)
         (rest : list (list N * list N)) (current_time : time),
         _parse_time_range time_range = Returns (start_time, end_time) →
         time_gt start_time end_time = true →
         scan_schedule current_time ((time_range, activity) :: rest)
         = scan_schedule current_time rest)
    ∧ (∀ activity : list N,
         _parse_time_range (py "23:00-01:00")
         = Returns (mk_time 23 0 0 0, mk_time 1 0 0 0)
         ∧ inside_wrapped (mk_time 23 0 0 0) (mk_time 1 0 0 0)
             (mk_time 23 30 0 0) = true
         ∧ scan_schedule (mk_time 23 30 0 0) [(py "23:00-01:00", activity)]
           = Returns None
         ∧ inside_wrapped (mk_time 23 0 0 0) (mk_time 1 0 0 0)
             (mk_time 0 30 0 0) = true
         ∧ scan_schedule (mk_time 0 30 0 0) [(py "23:00-01:00", activity)]
           = Returns None).
Proof.
  intros SUN MON TUE WED THU FRI SAT.
  split; [apply get_current_activity_raises|]. split.
  - intros k a s e rest t Hk Hgt. cbn [scan_schedule]. rewrite Hk, Hgt.
    now rewrite wrapping_range_never_matches.
  - intros activity. repeat split; vm_compute; reflexivity.
Qed.

(** C3: a time equal to the start or to the end of a range gets no
    activity from [get_current_activity]: as written, the call raises
    [TypeError] at line 41, whatever the tables hold.  The loop of lines 46
    to 56 has the inclusive test: run for a time that is the start or the
    end of the first range of a table, it ends in that range's activity
    when the range does not wrap, and passes over the range when it
    does. *)
Theorem boundary_time_gets_no_activity :
  ∀ (SUN MON TUE WED THU FRI SAT : list (list N * list N)),
    get_current_activity SUN MON TUE WED THU FRI SAT
    = Raises (TypeError "unbound method datetime.time() needs an argument")
    ∧ (∀ (time_range activity : list N) (start_time end_time : time)
         (rest : list (list N * list N)) (current_time : time),
         _parse_time_range time_range = Returns (start_time, end_time) →
         current_time = start_time ∨ current_time = end_time →
         scan_schedule current_time ((time_range, activity) :: rest)
         = if time_gt start_time end_time
           then scan_schedule current_time rest
           else Returns (Some activity)).
Proof.
  intros SUN MON TUE WED THU FRI SAT.
  split; [apply get_current_activity_raises|].
  intros k a s e rest t Hk Hb. cbn [scan_schedule]. rewrite Hk.
  destruct (time_gt s e) eqn:Hgt.
  - now rewrite wrapping_range_never_matches.
  - assert (Hle : time_le s e = true) by now rewrite time_le_gt, Hgt.
    destruct Hb as [-> | ->]; now rewrite time_le_refl, Hle.
Qed.

End ActivityClaims.

(** ** Validation in front of the hosted back ends *)

Section SpeechClaims.
Import Speech.

Lemma falsy_strip (s : list N) : falsy (strip s) = true ↔ blank s.
Proof.
  unfold blank. rewrite <- strip_nil.
  destruct (strip s); cbn; split; congruence.
Qed.

Lemma falsy_strip_false (s : list N) : strip s ≠ [] → falsy (strip s) = false.
Proof. destruct (strip s); [congruence|reflexivity]. Qed.

(** C5: a text that is empty or all whitespace is refused with the
    [ValueError] of the validation, and the world is as it was before the
    call: nothing was sent to the speech service, no client was made. *)
Theorem blank_text_is_refused_before_any_call :
  ∀ (convert : list N → outcome (list (list Byte.byte))) (text : list N)
    (w : world),
    blank text →
    synthesize convert text w
    = (Raises (ValueError "Input text cannot be empty."), w)
    ∧ converted (synthesize convert text w).2 = converted w.
Proof.
  intros convert text w Hb. apply falsy_strip in Hb.
  unfold synthesize. rewrite Hb. split; reflexivity.
Qed.

Lemma blank_text_is_refused_before_any_call_witness :
  synthesize (λ _, Returns [[Byte.x00]]) (py "   ") (mk_world false [])
  = (Raises (ValueError "Input text cannot be empty."), mk_world false [])
  ∧ converted
      (synthesize (λ _, Returns [[Byte.x00]]) (py "   ") (mk_world false [])).2
    = [].
Proof.
  apply (blank_text_is_refused_before_any_call
           (λ _, Returns [[Byte.x00]]) (py "   ") (mk_world false [])).
  repeat constructor.
Defined.

(** C4, as the specification states it, fails: a text of 5001 characters
    is refused with a [ValueError], which is no [TextToSpeechError]. *)
Lemma over_length_text_raises_no_TextToSpeechError :
  ¬ (∀ (convert : list N → outcome (list (list Byte.byte))) (text : list N)
       (w : world),
       (len text > 5000)%Z →
       ∃ msg, (synthesize convert text w).1 = Raises (TextToSpeechError msg)).
Proof.
  intros H.
  destruct (H (λ _, Returns []) (replicate (Z.to_nat 5001) 97%N)
              (mk_world false []) eq_refl) as [msg Hmsg].
  vm_compute in Hmsg. discriminate Hmsg.
Qed.

(** C4, amended: a text of more than 5000 characters is refused with a
    [ValueError] and the world is as it was, so that nothing, shortened or
    not, reaches the speech service; a text of exactly 5000 characters
    that is not blank passes the validation: it is sent whole, and the
    outcome is that of the service. *)
Theorem over_length_text_is_refused_with_ValueError :
  ∀ (convert : list N → outcome (list (list Byte.byte))) (text : list N)
    (w : world),
    ((len text > 5000)%Z →
     ∃ msg, synthesize convert text w = (Raises (ValueError msg), w))
    ∧ ((len text = 5000)%Z → ¬ blank text →
       converted (synthesize convert text w).2 = converted w ++ [text]
       ∧ (synthesize convert text w).1
         = match convert text with
           | Returns chunks =>
               match concat chunks with
               | [] => Raises (TextToSpeechError
                        "Text-to-speech conversion failed: Generated audio is empty")
               | audio => Returns audio
               end
           | Raises e =>
               Raises (TextToSpeechError
                         ("Text-to-speech conversion failed: " ++ exn_str e)%string)
           end).
Proof.
  intros convert text w. split.
  - intros Hlen. unfold synthesize.
    destruct (falsy (strip text)); [eexists; reflexivity|].
    apply Z.gtb_gt in Hlen. rewrite Hlen. eexists; reflexivity.
  - intros Hlen Hb. unfold synthesize.
    destruct (falsy (strip text)) eqn:Hs.
    { exfalso. apply Hb. now apply falsy_strip. }
    replace (len text >? 5000)%Z with false
      by (symmetry; rewrite Z.gtb_ltb; apply Z.ltb_ge; lia).
    unfold try_except, convert_and_join, client, modify, bind, lift, ret, raise.
    cbn [_client converted].
    destruct (convert text) as [chunks|e]; cbn [fst snd converted].
    + destruct (concat chunks); split; reflexivity.
    + split; reflexivity.
Qed.

Lemma over_length_text_is_refused_with_ValueError_witness :
  (∃ msg,
     synthesize (λ _, Returns [[Byte.x00]]) (replicate (Z.to_nat 5001) 97%N)
       (mk_world false [])
     = (Raises (ValueError msg), mk_world false []))
  ∧ converted
      (synthesize (λ _, Returns [[Byte.x00]]) (replicate (Z.to_nat 5000) 97%N)
         (mk_world false [])).2
    = [] ++ [replicate (Z.to_nat 5000) 97%N].
Proof.
  pose proof (over_length_text_is_refused_with_ValueError
                (λ _, Returns [[Byte.x00]]) (replicate (Z.to_nat 5001) 97%N)
                (mk_world false [])) as [H1 _].
  pose proof (over_length_text_is_refused_with_ValueError
                (λ _, Returns [[Byte.x00]]) (replicate (Z.to_nat 5000) 97%N)
                (mk_world false [])) as [_ H2].
  split.
  - apply H1. vm_compute. reflexivity.
  - apply H2.
    + vm_compute. reflexivity.
    + intros Hb. apply falsy_strip in Hb. vm_compute in Hb. discriminate Hb.
Defined.

End SpeechClaims.

Section ImageClaims.
Import Image.

(** Whatever the body of [generate_image] raises leaves it as a
    [TextToImageError]. *)
Lemma try_except_wraps {W A : Type} (m : M W A) (wrap : exn → exn) (w : W)
    (e : exn) :
  (try_except m (λ x, raise (wrap x)) w).1 = Raises e →
  ∃ x, (m w).1 = Raises x ∧ e = wrap x.
Proof.
  unfold try_except, raise. destruct (m w) as [[a|x] w']; cbn.
  - discriminate.
  - intros [= <-]. now exists x.
Qed.

(** C6: a blank prompt is refused with the [ValueError] of the validation
    and the world is as it was before the call, no prompt having reached
    the image service; for a prompt that is not blank, an exception of the
    image service comes out as a [TextToImageError] that carries its text,
    and so does every other exception behind the validation. *)
Theorem blank_prompt_is_refused_and_failures_are_wrapped :
  ∀ (generate_images : list N → outcome response)
    (b64decode : list N → outcome (list Byte.byte))
    (write_file : list N → list Byte.byte → outcome unit)
    (prompt output_path : list N) (w : world),
    let run :=
      generate_image generate_images b64decode write_file prompt output_path in
    (blank prompt →
     run w = (Raises (ValueError "Prompt cannot be empty"), w)
     ∧ generated (run w).2 = generated w)
    ∧ (¬ blank prompt →
       (∀ e, generate_images prompt = Raises e →
             (run w).1
             = Raises (TextToImageError
                         ("Failed to generate image: " ++ exn_str e)%string))
       ∧ (∀ e, (run w).1 = Raises e → ∃ msg, e = TextToImageError msg)).
Proof.
  intros generate_images b64decode write_file prompt output_path w run.
  subst run. unfold generate_image. split.
  - intros Hb. apply falsy_strip in Hb. rewrite Hb. split; reflexivity.
  - intros Hb. destruct (falsy (strip prompt)) eqn:Hs.
    { exfalso. apply Hb. now apply falsy_strip. }
    split.
    + intros e He.
      unfold try_except, logger_info, call_generate_images, gemini_client,
        modify, bind, lift, raise.
      rewrite He. reflexivity.
    + intros e He. apply try_except_wraps in He as (x & _ & ->).
      now eexists.
Qed.

Lemma blank_prompt_is_refused_and_failures_are_wrapped_witness :
  (generate_image (λ _, Raises (Failure "quota exceeded")) (λ _, Returns [])
     (λ _ _, Returns tt) (py "  ") [] (mk_world false [] [] [])
   = (Raises (ValueError "Prompt cannot be empty"), mk_world false [] [] []))
  ∧ (generate_image (λ _, Raises (Failure "quota exceeded")) (λ _, Returns [])
       (λ _ _, Returns tt) (py "a cat") [] (mk_world false [] [] [])).1
    = Raises (TextToImageError "Failed to generate image: quota exceeded").
Proof.
  pose proof (blank_prompt_is_refused_and_failures_are_wrapped
                (λ _, Raises (Failure "quota exceeded")) (λ _, Returns [])
                (λ _ _, Returns tt) (py "  ") [] (mk_world false [] [] []))
    as [H1 _].
  pose proof (blank_prompt_is_refused_and_failures_are_wrapped
                (λ _, Raises (Failure "quota exceeded")) (λ _, Returns [])
                (λ _ _, Returns tt) (py "a cat") [] (mk_world false [] [] []))
    as [_ H2].
  split.
  - refine (proj1 (H1 _)). repeat constructor.
  - refine (proj1 (H2 _) _ eq_refl).
    intros Hb. apply falsy_strip in Hb. vm_compute in Hb. discriminate Hb.
Defined.

End ImageClaims.

(** ** The workflow graph *)

Section GraphClaims.
Import Graph.

Lemma create_workflow_graph_returns (sel sum : path_fn) :
  create_workflow_graph sel sum = Returns (built sel sum).
Proof. vm_compute. reflexivity. Qed.

(** C10: in the graph as built, the conditional edge from ["audio_node"]
    and the edge from ["summarize_conversation_node"] start at names under
    which no node is registered (the audio stage is registered as
    ["audio_mode"]), and [compile()] refuses the graph for it. *)
Theorem workflow_graph_has_edges_from_unregistered_names :
  ∀ (select_workflow should_summarize_conversation : path_fn),
    let g := built select_workflow should_summarize_conversation in
    create_workflow_graph select_workflow should_summarize_conversation
    = Returns g
    ∧ "audio_node" ∈ dom (branches g)
    ∧ nodes g !! "audio_node" = None
    ∧ nodes g !! "audio_mode" = Some audio_node
    ∧ ("summarize_conversation_node", END) ∈ edges g
    ∧ nodes g !! "summarize_conversation_node" = None
    ∧ ¬ endpoints_registered g
    ∧ compile (create_workflow_graph select_workflow
                 should_summarize_conversation)
      = Raises (ValueError "Found edge starting at unknown node").
Proof.
  intros sel sum g. subst g.
  assert (Ha : "audio_node" ∈ dom (branches (built sel sum))).
  { apply (bool_decide_unpack _). vm_compute. exact I. }
  split; [apply create_workflow_graph_returns|].
  split; [exact Ha|].
  split; [reflexivity|]. split; [reflexivity|].
  split; [apply (bool_decide_unpack _); vm_compute; exact I|].
  split; [reflexivity|].
  split; [|vm_compute; reflexivity].
  intros [Hs _]. destruct (Hs "audio_node") as [H|[f H]].
  - unfold sources. apply elem_of_union. now right.
  - discriminate H.
  - vm_compute in H. discriminate H.
Qed.

End GraphClaims.

(** ** The Telegram webhook *)

Section TelegramClaims.
Import Telegram.

(** Behind the check of the method the update goes through the graph,
    and reading the state back fails: nothing is sent to the user. *)
Example process_update_fails_behind_the_graph :
  process_update
    (λ _ _, Raises (Failure "no network")) (λ _ _ _, Returns 200%Z)
    (λ _, Returns []) (λ _, Returns []) (λ _ _, Returns tt)
    (λ _, Returns [])
    (mk_request "GET"
       (Returns (JObj [("message",
                        JArr [JObj [("from", JObj [("id", JNum 7)]);
                                    ("text", JStr (py "hi"))]])])))
    []
  = (Returns (mk_http_response "Internal server error" 500),
     [GraphInvoke (JStr (py "hi")) (JNum 7); Log "Error processing message"]).
Proof. vm_compute. reflexivity. Qed.

(** C9: a POST update that carries the secret token is answered with
    "Received Telegram data" at once, whatever it carries: the log of the
    handler is as it was, so that the graph was not invoked and nothing
    was sent to the user. *)
Theorem authenticated_post_is_answered_without_running_the_graph :
  ∀ (SECRET_WEBHOOK_TOKEN : option (list N))
    (http_get : url → option json → outcome (outcome json * list Byte.byte))
    (http_post : url → list (string * json) → option (list Byte.byte)
                 → outcome Z)
    (transcribe analyze_image : list Byte.byte → outcome (list N))
    (ainvoke : json → json → outcome unit)
    (read_file : list N → outcome (list Byte.byte))
    (update : outcome json) (log : list event),
    telegram_handler SECRET_WEBHOOK_TOKEN http_get http_post transcribe
      analyze_image ainvoke read_file
      (mk_request "POST" update) SECRET_WEBHOOK_TOKEN log
    = (Returns (mk_http_response "Received Telegram data" 200), log)
    ∧ filter (λ e, is_engine_call e = true)
        (telegram_handler SECRET_WEBHOOK_TOKEN http_get http_post transcribe
           analyze_image ainvoke read_file
           (mk_request "POST" update) SECRET_WEBHOOK_TOKEN []).2
      = [].
Proof.
  intros SECRET http_get http_post transcribe analyze_image ainvoke
    read_file update log.
  unfold telegram_handler. cbn [method].
  rewrite (bool_decide_eq_true_2 ("POST" = "POST")) by reflexivity.
  rewrite (bool_decide_eq_false_2 (SECRET ≠ SECRET)) by (intros H; now apply H).
  split; reflexivity.
Qed.

End TelegramClaims.

(** * Further properties of the code *)

(** ** [remove_asterisk_content] *)

Section ReplyParserMore.
Import Helpers ReplyParser.

Lemma closing_span_inv (r : list N) (n : nat) :
  closing r = Some n →
  ∃ mid post, r = mid ++ asterisk :: post ∧ newline ∉ mid.
Proof.
  revert n. induction r as [|x r IH]; intros n; cbn [closing]; [discriminate|].
  destruct (x =? asterisk)%N eqn:Ea.
  { apply N.eqb_eq in Ea. subst x. intros _. exists [], r.
    split; [reflexivity|]. apply not_elem_of_nil. }
  destruct (x =? newline)%N eqn:En; [discriminate|].
  destruct (closing r) as [m|]; [|discriminate]. intros _.
  destruct (IH m eq_refl) as (mid & post & -> & Hn).
  exists (x :: mid), post. split; [reflexivity|].
  apply not_elem_of_cons. split; [|exact Hn].
  intros E. rewrite <- E in En. now rewrite N.eqb_refl in En.
Qed.

Lemma has_line_span_cons (x : N) (s : list N) :
  has_line_span s → has_line_span (x :: s).
Proof.
  intros (a & b & c & -> & Hb). now exists (x :: a), b, c.
Qed.

Lemma scrub_fixed (s : list N) : ¬ has_line_span s → scrub s = s.
Proof.
  induction s as [|x s IH]; intros Hs; [reflexivity|].
  rewrite scrub_cons.
  assert (Hs' : ¬ has_line_span s).
  { intros H. apply Hs. now apply has_line_span_cons. }
  destruct (x =? asterisk)%N eqn:Ea; [|now rewrite IH].
  apply N.eqb_eq in Ea. subst x.
  destruct (closing s) as [n|] eqn:Ec; [|now rewrite IH].
  exfalso. apply Hs.
  destruct (closing_span_inv s n Ec) as (mid & post & -> & Hn).
  now exists [], mid, post.
Qed.

Lemma lstrip_fixed (s : list N) :
  (∀ c, head s = Some c → isspace c = false) → lstrip s = s.
Proof.
  destruct s as [|x s]; [reflexivity|]. intros H. cbn [lstrip].
  now rewrite (H x eq_refl).
Qed.

Lemma strip_fixed (s : list N) : trimmed s → strip s = s.
Proof.
  intros H. unfold strip, rstrip.
  rewrite (lstrip_fixed s) by (intros c Hc; apply H; now left).
  rewrite lstrip_fixed; [apply reverse_involutive|].
  intros c Hc. rewrite head_reverse in Hc. apply H. now right.
Qed.

(** The parser changes nothing in a text it has parsed. *)
Theorem remove_asterisk_content_idempotent :
  ∀ text : list N,
    remove_asterisk_content (remove_asterisk_content text)
    = remove_asterisk_content text.
Proof.
  intros text. unfold remove_asterisk_content at 1. fold (scrub (remove_asterisk_content text)).
  rewrite scrub_fixed.
  - apply strip_fixed. apply strip_trimmed.
  - unfold remove_asterisk_content. fold (scrub text).
    apply strip_no_line_span, scrub_no_line_span.
Qed.

(** A text in which no two asterisks stand on one line is only stripped:
    a lone asterisk, or one asterisk on each of several lines, stays. *)
Theorem remove_asterisk_content_keeps_lone_asterisks :
  ∀ text : list N,
    ¬ has_line_span text → remove_asterisk_content text = strip text.
Proof.
  intros text H. unfold remove_asterisk_content. fold (scrub text).
  now rewrite scrub_fixed.
Qed.

Lemma one_per_line_no_span (s : list N) (seen : bool) :
  one_per_line seen s = true → ¬ has_line_span s.
Proof.
  intros H Hs. apply (one_per_line_span _ seen) in Hs. congruence.
Qed.

Lemma remove_asterisk_content_keeps_lone_asterisks_witness :
  remove_asterisk_content (py "2 * 3 = 6") = strip (py "2 * 3 = 6").
Proof.
  apply (remove_asterisk_content_keeps_lone_asterisks (py "2 * 3 = 6")).
  apply (one_per_line_no_span _ false). reflexivity.
Defined.

Lemma scrub_sublist (n : nat) :
  ∀ s : list N, length s ≤ n → sublist (scrub s) s.
Proof.
  induction n as [|n IH]; intros [|c r] Hlen; cbn [length] in Hlen;
    try (rewrite scrub_nil; constructor); try lia.
  assert (Hr : length r ≤ n) by lia.
  rewrite scrub_cons.
  destruct (c =? asterisk)%N; [|now constructor; apply IH].
  destruct (closing r) as [k|]; [|now constructor; apply IH].
  apply sublist_cons. transitivity (drop k r); [|apply sublist_drop].
  apply IH. rewrite length_drop. lia.
Qed.

(** The parser only deletes: what it returns is the text with some
    characters left out, the others in their order; so it is never longer
    than the text. *)
Theorem remove_asterisk_content_only_deletes :
  ∀ text : list N,
    sublist (remove_asterisk_content text) text
    ∧ length (remove_asterisk_content text) ≤ length text.
Proof.
  intros text.
  assert (H : sublist (remove_asterisk_content text) text).
  { unfold remove_asterisk_content. fold (scrub text).
    transitivity (scrub text); [|apply (scrub_sublist (length text)); lia].
    destruct (strip_infix (scrub text)) as (pre & post & E).
    rewrite E at 2. apply sublist_inserts_l, sublist_inserts_r. reflexivity. }
  split; [exact H|]. now apply sublist_length.
Qed.

End ReplyParserMore.

(** ** [_parse_time_range] *)

Section ParseTimeRange.
Import Schedules TimeFormat.

Lemma digit_bound (zeros : list N) (c x : N) :
  digit zeros c = Some x → (x < 10)%N.
Proof.
  unfold digit.
  destruct (List.find _ zeros) as [zero|] eqn:E; [|discriminate].
  apply find_some in E as [_ E]. intros [= <-].
  apply andb_true_iff in E as [H1 H2].
  apply N.leb_le in H1. apply N.ltb_lt in H2. lia.
Qed.

Lemma digit_upto_bound (top c x : N) :
  digit_upto top c = Some x → (x ≤ top)%N.
Proof.
  unfold digit_upto.
  destruct ((48 <=? c) && (c <=? 48 + top))%N eqn:E; [|discriminate].
  intros [= <-]. apply andb_true_iff in E as [H1 H2].
  apply N.leb_le in H1, H2. lia.
Qed.

Lemma two_digits_H_bound (zeros s r : list N) (v : N) :
  two_digits_H zeros s = Some (v, r) → (v < 24)%N.
Proof.
  unfold two_digits_H. destruct s as [|a [|b s]]; try discriminate.
  destruct (a =? 50)%N.
  - destruct (digit_upto 3 b) as [y|] eqn:Ey; [|discriminate].
    intros [= <- _]. apply digit_upto_bound in Ey. lia.
  - destruct (digit_upto 1 a) as [x|] eqn:Ex; [|discriminate].
    destruct (digit zeros b) as [y|] eqn:Ey; [|discriminate].
    intros [= <- _]. apply digit_upto_bound in Ex. apply digit_bound in Ey.
    lia.
Qed.

Lemma two_digits_M_bound (zeros s r : list N) (v : N) :
  two_digits_M zeros s = Some (v, r) → (v < 60)%N.
Proof.
  unfold two_digits_M. destruct s as [|a [|b s]]; try discriminate.
  destruct (digit_upto 5 a) as [x|] eqn:Ex; [|discriminate].
  destruct (digit zeros b) as [y|] eqn:Ey; [|discriminate].
  intros [= <- _]. apply digit_upto_bound in Ex. apply digit_bound in Ey.
  lia.
Qed.

Lemma one_digit_bound (zeros s r : list N) (v : N) :
  one_digit zeros s = Some (v, r) → (v < 10)%N.
Proof.
  unfold one_digit. destruct s as [|a s]; [discriminate|].
  destruct (digit zeros a) eqn:E; [|discriminate]. intros [= <- _].
  now apply digit_bound in E.
Qed.

Lemma parse_M_bound (zeros s : list N) (m : N) :
  parse_M zeros s = Some m → (m < 60)%N.
Proof.
  unfold parse_M.
  destruct (two_digits_M zeros s) as [[v [|x r]]|] eqn:E2.
  - intros [= <-]. now apply two_digits_M_bound in E2.
  - destruct (one_digit zeros s) as [[v' [|x' r']]|] eqn:E1;
      try discriminate.
    intros [= <-]. apply one_digit_bound in E1. lia.
  - destruct (one_digit zeros s) as [[v' [|x' r']]|] eqn:E1;
      try discriminate.
    intros [= <-]. apply one_digit_bound in E1. lia.
Qed.

Lemma parse_colon_M_clock (zeros : list N) (h : N) (s : list N) (t : time) :
  (h < 24)%N → parse_colon_M zeros h s = Some t → clock_time t.
Proof.
  intros Hh. unfold parse_colon_M. destruct s as [|c r]; [discriminate|].
  destruct (c =? 58)%N; [|discriminate].
  destruct (parse_M zeros r) as [m|] eqn:E; [|discriminate].
  intros [= <-]. apply parse_M_bound in E. now repeat split.
Qed.

Lemma strptime_HM_clock (zeros s : list N) (t : time) :
  strptime_HM zeros s = Some t → clock_time t.
Proof.
  unfold strptime_HM.
  destruct (two_digits_H zeros s) as [[h r]|] eqn:E2.
  - destruct (parse_colon_M zeros h r) as [t'|] eqn:Ec.
    + intros [= <-]. apply two_digits_H_bound in E2.
      now apply (parse_colon_M_clock zeros h r).
    + destruct (one_digit zeros s) as [[h' r']|] eqn:E1; [|discriminate].
      intros H. apply one_digit_bound in E1.
      apply (parse_colon_M_clock zeros h' r'); [lia|exact H].
  - destruct (one_digit zeros s) as [[h' r']|] eqn:E1; [|discriminate].
    intros H. apply one_digit_bound in E1.
    apply (parse_colon_M_clock zeros h' r'); [lia|exact H].
Qed.

(** Digits of other scripts are read where the pattern has [\d]: the
    range of ARABIC-INDIC SIX, colon, ZERO, dash, SEVEN, colon, ZERO is
    06:00 to 07:00; but the two-digit hour 23 has to be in ASCII. *)
Example arabic_indic_range :
  _parse_time_range [1638; 58; 1632; 45; 1639; 58; 1632]%N
  = Returns (mk_time 6 0 0 0, mk_time 7 0 0 0).
Proof. reflexivity. Qed.

Example arabic_indic_hour_23 :
  _parse_time_range [1634; 1635; 58; 48; 48; 45; 49; 58; 48]%N
  = Raises (ValueError "time data does not match format '%H:%M'").
Proof. reflexivity. Qed.

(** The two times of a range that parses are times of the clock: hours
    below 24, minutes below 60, no seconds, no microseconds; and that
    whatever decimal digits the Unicode database of the interpreter holds,
    digits of other scripts than ASCII included. *)
Theorem parsed_range_holds_clock_times :
  ∀ (zeros time_range : list N) (start_time end_time : time),
    parse_time_range_with zeros time_range = Returns (start_time, end_time) →
    clock_time start_time ∧ clock_time end_time.
Proof.
  intros zeros s t1 t2. unfold parse_time_range_with.
  destruct (split 45 s) as [|a [|b [|c l]]]; try discriminate.
  destruct (strptime_HM zeros a) as [x|] eqn:Ea; [|discriminate].
  destruct (strptime_HM zeros b) as [y|] eqn:Eb; [|discriminate].
  intros [= <- <-].
  split; [apply (strptime_HM_clock zeros a)|apply (strptime_HM_clock zeros b)];
    assumption.
Qed.

Lemma parsed_range_holds_clock_times_witness :
  clock_time (mk_time 6 0 0 0) ∧ clock_time (mk_time 7 30 0 0).
Proof.
  apply (parsed_range_holds_clock_times decimal_zeros
           [1638; 58; 1632; 45; 48; 1639; 58; 51; 1632]%N).
  reflexivity.
Defined.

Lemma split_length (sep : N) (s : list N) :
  length (split sep s) = S (length (filter (λ c, c = sep) s)).
Proof.
  induction s as [|c r IH]; [reflexivity|]. cbn [split].
  destruct (c =? sep)%N eqn:E.
  - apply N.eqb_eq in E. subst c. rewrite filter_cons_True by reflexivity.
    cbn [length]. now rewrite IH.
  - apply N.eqb_neq in E. rewrite filter_cons_False by exact E.
    rewrite <- IH. now destruct (split sep r).
Qed.

Lemma parse_raises_only_ValueError (s : list N) (e : exn) :
  _parse_time_range s = Raises e → ∃ msg, e = ValueError msg.
Proof.
  unfold _parse_time_range, parse_time_range_with.
  destruct (split 45 s) as [|a [|b [|c l]]];
    try (intros [= <-]; now eexists).
  destruct (strptime_HM _ a); [|intros [= <-]; now eexists].
  destruct (strptime_HM _ b); [discriminate|intros [= <-]; now eexists].
Qed.

(** A text with no dash, or with more than one, is no range: the call
    raises [ValueError]; and [ValueError] is all the call ever raises. *)
Theorem range_without_one_dash_raises_ValueError :
  ∀ time_range : list N,
    (dashes time_range ≠ 1 →
     ∃ msg, _parse_time_range time_range = Raises (ValueError msg))
    ∧ (∀ e, _parse_time_range time_range = Raises e →
            ∃ msg, e = ValueError msg).
Proof.
  intros s. pose proof (split_length 45 s) as Hl. fold (dashes s) in Hl.
  unfold _parse_time_range at 1, parse_time_range_with. split.
  - intros Hd. destruct (split 45 s) as [|a [|b [|c l]]]; cbn in Hl.
    + discriminate.
    + now eexists.
    + exfalso. apply Hd. lia.
    + now eexists.
  - apply parse_raises_only_ValueError.
Qed.

Lemma range_without_one_dash_raises_ValueError_witness :
  ∃ msg, _parse_time_range (py "23:00-01:00-02:00") = Raises (ValueError msg).
Proof.
  apply (proj1 (range_without_one_dash_raises_ValueError
                  (py "23:00-01:00-02:00"))).
  vm_compute. lia.
Defined.

End ParseTimeRange.

Section ParseRoundTrip.
Import Schedules TimeFormat.

Lemma digit_of (x : N) :
  (x < 10)%N → digit decimal_zeros (48 + x) = Some x.
Proof.
  intros H. unfold digit, decimal_zeros. cbn [List.find].
  replace ((48 <=? 48 + x) && (48 + x <? 48 + 10))%N with true.
  - f_equal. lia.
  - symmetry. apply andb_true_iff.
    split; [apply N.leb_le|apply N.ltb_lt]; lia.
Qed.

Lemma digit_upto_of (top x : N) :
  (x ≤ top)%N → digit_upto top (48 + x) = Some x.
Proof.
  intros H. unfold digit_upto.
  replace ((48 <=? 48 + x) && (48 + x <=? 48 + top))%N with true.
  - f_equal. lia.
  - symmetry. apply andb_true_iff. split; apply N.leb_le; lia.
Qed.

Lemma two_digits_H_of (h : N) (r : list N) :
  (h < 24)%N → two_digits_H decimal_zeros (two_digit h ++ r) = Some (h, r).
Proof.
  intros Hh. unfold two_digit, two_digits_H. cbn [app].
  assert (H1 : (h / 10 < 3)%N) by (apply N.Div0.div_lt_upper_bound; lia).
  assert (H2 : (h mod 10 < 10)%N) by (apply N.mod_lt; lia).
  assert (E : (10 * (h / 10) + h mod 10 = h)%N)
    by (symmetry; apply N.div_mod; lia).
  destruct (48 + h / 10 =? 50)%N eqn:E50.
  - apply N.eqb_eq in E50.
    rewrite digit_upto_of by lia. do 2 f_equal. lia.
  - apply N.eqb_neq in E50.
    rewrite digit_upto_of by lia. rewrite digit_of by assumption.
    now rewrite E.
Qed.

Lemma two_digits_M_of (m : N) (r : list N) :
  (m < 60)%N → two_digits_M decimal_zeros (two_digit m ++ r) = Some (m, r).
Proof.
  intros Hm. unfold two_digit, two_digits_M. cbn [app].
  assert (H1 : (m / 10 ≤ 5)%N).
  { apply N.lt_succ_r. apply N.Div0.div_lt_upper_bound. lia. }
  assert (H2 : (m mod 10 < 10)%N) by (apply N.mod_lt; lia).
  rewrite digit_upto_of by assumption. rewrite digit_of by assumption.
  assert (E : (10 * (m / 10) + m mod 10 = m)%N)
    by (symmetry; apply N.div_mod; lia).
  now rewrite E.
Qed.

Lemma strptime_HM_of (h m : N) :
  (h < 24)%N → (m < 60)%N →
  strptime_HM decimal_zeros (format_HM h m) = Some (mk_time h m 0 0).
Proof.
  intros Hh Hm. unfold strptime_HM, format_HM.
  rewrite two_digits_H_of by lia. cbn [app parse_colon_M].
  change (58 =? 58)%N with true. cbv iota.
  unfold parse_M.
  rewrite <- (app_nil_r (two_digit m)), two_digits_M_of by lia.
  reflexivity.
Qed.

Lemma split_plain (sep : N) (s : list N) : sep ∉ s → split sep s = [s].
Proof.
  induction s as [|c r IH]; intros H; [reflexivity|]. cbn [split].
  apply not_elem_of_cons in H as [Hc Hr].
  destruct (c =? sep)%N eqn:E.
  - apply N.eqb_eq in E. congruence.
  - now rewrite IH.
Qed.

Lemma split_at (sep : N) (a b : list N) :
  sep ∉ a → split sep (a ++ sep :: b) = a :: split sep b.
Proof.
  induction a as [|c r IH]; intros H; cbn [app split].
  - now rewrite N.eqb_refl.
  - apply not_elem_of_cons in H as [Hc Hr].
    destruct (c =? sep)%N eqn:E.
    + apply N.eqb_eq in E. congruence.
    + now rewrite IH.
Qed.

Lemma format_HM_no_dash (h m : N) : 45%N ∉ format_HM h m.
Proof.
  unfold format_HM, two_digit. cbn [app].
  pose proof (N.le_0_l (h / 10)). pose proof (N.le_0_l (h mod 10)).
  pose proof (N.le_0_l (m / 10)). pose proof (N.le_0_l (m mod 10)).
  rewrite !not_elem_of_cons.
  split; [lia|]. split; [lia|]. split; [lia|]. split; [lia|]. split; [lia|].
  apply not_elem_of_nil.
Qed.

(** A range written as [HH:MM-HH:MM], hours below 24 and minutes below
    60, parses to the two times it names. *)
Theorem written_range_parses_to_its_times :
  ∀ h1 m1 h2 m2 : N,
    (h1 < 24)%N → (m1 < 60)%N → (h2 < 24)%N → (m2 < 60)%N →
    _parse_time_range (format_range h1 m1 h2 m2)
    = Returns (mk_time h1 m1 0 0, mk_time h2 m2 0 0).
Proof.
  intros h1 m1 h2 m2 H1 H2 H3 H4.
  unfold _parse_time_range, parse_time_range_with, format_range.
  cbn [app]. rewrite split_at by apply format_HM_no_dash.
  rewrite split_plain by apply format_HM_no_dash.
  now rewrite !strptime_HM_of.
Qed.

Lemma written_range_parses_to_its_times_witness :
  _parse_time_range (format_range 23 0 1 5)
  = Returns (mk_time 23 0 0 0, mk_time 1 5 0 0).
Proof.
  apply (written_range_parses_to_its_times 23 0 1 5); reflexivity.
Defined.

End ParseRoundTrip.

(** ** [TextToSpeech.synthesize] *)

Section SynthesizeMore.
Import Speech.

Lemma synthesize_valid
    (convert : list N → outcome (list (list Byte.byte))) (text : list N)
    (w : world) :
  ¬ blank text → (len text <= 5000)%Z →
  synthesize convert text w
  = (match convert text with
     | Returns chunks =>
         match concat chunks with
         | [] => Raises (TextToSpeechError
                   "Text-to-speech conversion failed: Generated audio is empty")
         | audio => Returns audio
         end
     | Raises e =>
         Raises (TextToSpeechError
                   ("Text-to-speech conversion failed: " ++ exn_str e)%string)
     end, mk_world true (converted w ++ [text])).
Proof.
  intros Hb Hlen. unfold synthesize.
  destruct (falsy (strip text)) eqn:Hs.
  { exfalso. apply Hb. now apply falsy_strip. }
  replace (len text >? 5000)%Z with false
    by (symmetry; rewrite Z.gtb_ltb; apply Z.ltb_ge; lia).
  unfold try_except, convert_and_join, client, modify, bind, lift, ret, raise.
  cbn [_client converted].
  destruct (convert text) as [chunks|e]; [|reflexivity].
  now destruct (concat chunks).
Qed.

Lemma synthesize_blank
    (convert : list N → outcome (list (list Byte.byte))) (text : list N)
    (w : world) :
  blank text →
  synthesize convert text w
  = (Raises (ValueError "Input text cannot be empty."), w).
Proof.
  intros Hb. apply falsy_strip in Hb. unfold synthesize. now rewrite Hb.
Qed.

Lemma blank_dec (text : list N) : {blank text} + {¬ blank text}.
Proof. unfold blank. apply Forall_dec. intros c. apply bool_dec. Qed.

(** [synthesize] raises [ValueError] exactly for a text that is blank or
    longer than 5000 characters; whatever goes wrong for another text
    comes out as an exception of another class. *)
Theorem synthesize_raises_ValueError_iff_text_is_invalid :
  ∀ (convert : list N → outcome (list (list Byte.byte))) (text : list N)
    (w : world),
    (∃ msg, (synthesize convert text w).1 = Raises (ValueError msg))
    ↔ blank text ∨ (len text > 5000)%Z.
Proof.
  intros convert text w. split.
  - intros [msg H].
    destruct (blank_dec text) as [Hb|Hb]; [now left|]. right.
    destruct (Z_gt_dec (len text) 5000) as [Hl|Hl]; [exact Hl|]. exfalso.
    rewrite synthesize_valid in H by (assumption || lia). cbn [fst] in H.
    destruct (convert text) as [chunks|e]; [|discriminate].
    destruct (concat chunks); discriminate.
  - intros [Hb|Hl].
    + eexists. now rewrite (synthesize_blank convert text w Hb).
    + unfold synthesize. destruct (falsy (strip text)); [now eexists|].
      apply Z.gtb_gt in Hl. rewrite Hl. now eexists.
Qed.

(** The audio [synthesize] returns is never empty: it is the chunks of
    the speech service joined, and the service was sent the text whole in
    the one call made. *)
Theorem synthesize_returns_the_joined_audio :
  ∀ (convert : list N → outcome (list (list Byte.byte))) (text : list N)
    (w : world) (audio : list Byte.byte),
    (synthesize convert text w).1 = Returns audio →
    audio ≠ []
    ∧ (∃ chunks, convert text = Returns chunks ∧ audio = concat chunks)
    ∧ (synthesize convert text w).2 = mk_world true (converted w ++ [text]).
Proof.
  intros convert text w audio H.
  destruct (blank_dec text) as [Hb|Hb].
  { rewrite (synthesize_blank convert text w Hb) in H. discriminate. }
  destruct (Z_gt_dec (len text) 5000) as [Hl|Hl].
  { exfalso. unfold synthesize in H. destruct (falsy (strip text));
      [discriminate|]. apply Z.gtb_gt in Hl. rewrite Hl in H. discriminate. }
  rewrite synthesize_valid in * by (assumption || lia). cbn [fst snd] in *.
  destruct (convert text) as [chunks|e]; [|discriminate].
  destruct (concat chunks) as [|b l] eqn:E; [discriminate|].
  injection H as <-. split; [discriminate|]. split; [|reflexivity].
  now exists chunks.
Qed.

Lemma synthesize_returns_the_joined_audio_witness :
  [Byte.x01; Byte.x02] ≠ []
  ∧ (∃ chunks,
       (λ _ : list N, Returns [[Byte.x01]; [Byte.x02]]) (py "Hello")
       = Returns chunks
       ∧ [Byte.x01; Byte.x02] = concat chunks)
  ∧ (synthesize (λ _, Returns [[Byte.x01]; [Byte.x02]]) (py "Hello")
       (mk_world false [])).2
    = mk_world true ([] ++ [py "Hello"]).
Proof.
  apply (synthesize_returns_the_joined_audio
           (λ _, Returns [[Byte.x01]; [Byte.x02]]) (py "Hello")
           (mk_world false []) [Byte.x01; Byte.x02]).
  reflexivity.
Defined.

End SynthesizeMore.

(** ** [TextToImage.generate_image] *)

Section GenerateImageMore.
Import Image.

(** With an output path, [generate_image] never returns the image: the
    call ends in a [TextToImageError] whatever the service does, and when
    service, decoding and writing all succeed, the file has been written
    by then and the error is that of calling the logger. *)
Theorem generate_image_with_output_path_never_returns :
  ∀ (generate_images : list N → outcome response)
    (b64decode : list N → outcome (list Byte.byte))
    (write_file : list N → list Byte.byte → outcome unit)
    (prompt output_path : list N) (w : world),
    ¬ blank prompt → output_path ≠ [] →
    (∃ msg,
       (generate_image generate_images b64decode write_file prompt
          output_path w).1
       = Raises (TextToImageError msg))
    ∧ (∀ first rest image_data,
         generate_images prompt = Returns (mk_response (first :: rest)) →
         b64decode (b64_json first) = Returns image_data →
         write_file output_path image_data = Returns tt →
         generate_image generate_images b64decode write_file prompt
           output_path w
         = (Raises (TextToImageError
                      "Failed to generate image: 'Logger' object is not callable"),
            mk_world true
              (logged w ++ [py "Generating image for prompt: " ++ prompt])
              (generated w ++ [prompt])
              (written w ++ [(output_path, image_data)]))).
Proof.
  intros generate_images b64decode write_file prompt output_path w Hb Hp.
  unfold generate_image.
  destruct (falsy (strip prompt)) eqn:Hs.
  { exfalso. apply Hb. now apply falsy_strip. }
  destruct output_path as [|c path]; [congruence|]. cbn [falsy].
  unfold try_except, logger_info, call_generate_images, gemini_client,
    first_image, save, modify, bind, lift, ret, raise.
  cbn [_gemini_client logged generated written]. split.
  - destruct (generate_images prompt) as [[[|i l]]|e]; try (now eexists).
    cbn [data]. destruct (b64decode (b64_json i)); [|now eexists].
    destruct (write_file (c :: path) a) as [[]|]; now eexists.
  - intros first rest image_data -> Hd Hw. cbn [data].
    now rewrite Hd, Hw.
Qed.

Lemma generate_image_with_output_path_never_returns_witness :
  ∃ msg,
    (generate_image (λ _, Returns (mk_response [mk_image (py "AAEC")]))
       (λ _, Returns [Byte.x00; Byte.x01; Byte.x02]) (λ _ _, Returns tt)
       (py "a cat") (py "out/cat.png") (mk_world false [] [] [])).1
    = Raises (TextToImageError msg).
Proof.
  refine (proj1 (generate_image_with_output_path_never_returns
                   (λ _, Returns (mk_response [mk_image (py "AAEC")]))
                   (λ _, Returns [Byte.x00; Byte.x01; Byte.x02])
                   (λ _ _, Returns tt)
                   (py "a cat") (py "out/cat.png") (mk_world false [] [] [])
                   _ _)).
  - intros Hb. apply falsy_strip in Hb. vm_compute in Hb. discriminate Hb.
  - discriminate.
Defined.

(** Without an output path, [generate_image] returns the decoded first
    image of the response, having logged the prompt, called the service
    once with the prompt as it is, and written no file; a response
    without images comes out as a [TextToImageError]. *)
Theorem generate_image_returns_the_first_image_decoded :
  ∀ (generate_images : list N → outcome response)
    (b64decode : list N → outcome (list Byte.byte))
    (write_file : list N → list Byte.byte → outcome unit)
    (prompt : list N) (w : world) (images : list image),
    ¬ blank prompt →
    generate_images prompt = Returns (mk_response images) →
    generate_image generate_images b64decode write_file prompt [] w
    = (match images with
       | first :: _ =>
           match b64decode (b64_json first) with
           | Returns image_data => Returns image_data
           | Raises e =>
               Raises (TextToImageError
                         ("Failed to generate image: " ++ exn_str e)%string)
           end
       | [] =>
           Raises (TextToImageError
                     "Failed to generate image: list index out of range")
       end,
       mk_world true
         (logged w ++ [py "Generating image for prompt: " ++ prompt])
         (generated w ++ [prompt]) (written w)).
Proof.
  intros generate_images b64decode write_file prompt w images Hb Hg.
  unfold generate_image.
  destruct (falsy (strip prompt)) eqn:Hs.
  { exfalso. apply Hb. now apply falsy_strip. }
  cbn [falsy].
  unfold try_except, logger_info, call_generate_images, gemini_client,
    first_image, modify, bind, lift, ret, raise.
  cbn [_gemini_client logged generated written]. rewrite Hg. cbn [data].
  destruct images as [|i l]; [reflexivity|].
  now destruct (b64decode (b64_json i)).
Qed.

Lemma generate_image_returns_the_first_image_decoded_witness :
  generate_image (λ _, Returns (mk_response [mk_image (py "AAEC")]))
    (λ _, Returns [Byte.x00; Byte.x01; Byte.x02]) (λ _ _, Returns tt)
    (py "a cat") [] (mk_world false [] [] [])
  = (Returns [Byte.x00; Byte.x01; Byte.x02],
     mk_world true ([] ++ [py "Generating image for prompt: " ++ py "a cat"])
       ([] ++ [py "a cat"]) []).
Proof.
  apply (generate_image_returns_the_first_image_decoded
           (λ _, Returns (mk_response [mk_image (py "AAEC")]))
           (λ _, Returns [Byte.x00; Byte.x01; Byte.x02]) (λ _ _, Returns tt)
           (py "a cat") (mk_world false [] [] []) [mk_image (py "AAEC")]).
  - intros Hb. apply falsy_strip in Hb. vm_compute in Hb. discriminate Hb.
  - reflexivity.
Defined.

End GenerateImageMore.

(** ** [send_response] and [telegram_handler] *)

Section TelegramMore.
Import Telegram Effects.








End TelegramMore.

(** ** [_validate_env_vars] *)

Section EnvMore.
Import Env.

(** The validation passes exactly when every required variable is set to
    a text that is not empty: a variable set to the empty text counts as
    missing.  When it fails, it raises a [ValueError] that names the
    missing variables, and only these, in the order of the list. *)
Theorem validate_env_vars_passes_iff_all_are_set :
  ∀ (getenv : string → option (list N)) (REQUIRED_ENV_VARS : list string),
    (_validate_env_vars getenv REQUIRED_ENV_VARS = Returns tt
     ↔ ∀ var, var ∈ REQUIRED_ENV_VARS →
              ∃ c value, getenv var = Some (c :: value))
    ∧ (∀ e, _validate_env_vars getenv REQUIRED_ENV_VARS = Raises e →
         ∃ missing,
           e = ValueError
                 ("Missing required environment variables: "
                  ++ join missing)%string
           ∧ missing ≠ []
           ∧ sublist missing REQUIRED_ENV_VARS
           ∧ ∀ var, var ∈ missing
                    ↔ var ∈ REQUIRED_ENV_VARS
                      ∧ (getenv var = None ∨ getenv var = Some [])).
Proof.
  intros getenv req. unfold _validate_env_vars.
  assert (Hin : ∀ var, var ∈ List.filter (unset getenv) req
                       ↔ var ∈ req
                         ∧ (getenv var = None ∨ getenv var = Some [])).
  { intros var. rewrite !list_elem_of_In, filter_In. unfold unset.
    destruct (getenv var) as [[|c v]|]; intuition congruence. }
  split.
  - split.
    + intros H var Hv.
      destruct (List.filter (unset getenv) req) as [|m l] eqn:E;
        [|discriminate].
      destruct (getenv var) as [[|c v]|] eqn:Eg; [| now eexists _, _ |].
      * assert (Hm : var ∈ @nil string) by (apply Hin; auto).
        now apply elem_of_nil in Hm.
      * assert (Hm : var ∈ @nil string) by (apply Hin; auto).
        now apply elem_of_nil in Hm.
    + intros H.
      destruct (List.filter (unset getenv) req) as [|m l] eqn:E;
        [reflexivity|]. exfalso.
      assert (Hm : m ∈ m :: l) by left.
      apply Hin in Hm as [Hr Hu].
      destruct (H m Hr) as (c & v & Hc). destruct Hu; congruence.
  - intros e H. exists (List.filter (unset getenv) req).
    destruct (List.filter (unset getenv) req) as [|m l] eqn:E;
      [discriminate|].
    injection H as <-. split; [reflexivity|]. split; [discriminate|].
    split; [|exact Hin].
    rewrite <- E. clear. induction req as [|x r IH]; [constructor|].
    cbn [List.filter]. destruct (unset getenv x); now constructor.
Qed.

End EnvMore.

(** ** [ImageToText.analyze_image] *)

Section AnalyzeImageMore.
Import ImageToText.

(** Whatever goes wrong in [analyze_image] leaves it as an
    [ImageToTextError] whose text starts with "Failed to analyze image: ";
    that holds for empty image data and for a path to no file as well,
    which come out with no request made to the vision model. *)
Theorem analyze_image_raises_only_ImageToTextError :
  ∀ (path_exists : list N → bool)
    (read_file : list N → outcome (list Byte.byte))
    (b64encode : list Byte.byte → list N)
    (create : list N → outcome completion)
    (image_data : image_input) (prompt : list N) (w : world),
    (∀ r,
       (analyze_image path_exists read_file b64encode create
          image_data prompt w).1 = Raised r →
       ∃ cause, r = ImageToTextError (py "Failed to analyze image: " ++ cause))
    ∧ analyze_image path_exists read_file b64encode create (Bytes []) prompt w
      = (Raised (ImageToTextError
                   (py "Failed to analyze image: Image data cannot be empty")),
         w)
    ∧ (∀ path,
         path_exists path = false →
         analyze_image path_exists read_file b64encode create (Path path)
           prompt w
         = (Raised (ImageToTextError
                      (py "Failed to analyze image: Image file not found: "
                       ++ path)),
            w)).
Proof.
  intros path_exists read_file b64encode create image_data prompt w.
  split; [|split].
  - intros r. unfold analyze_image.
    destruct (analyze _ _ _ _ image_data prompt w) as [[d|x] w'];
      [discriminate|].
    intros [= <-]. now eexists.
  - reflexivity.
  - intros path Hp. unfold analyze_image, analyze, image_bytes_of.
    now rewrite Hp.
Qed.

(** The prompt has no part in the analysis: the request to the vision
    model holds the image and nothing else, so two calls that differ in
    the prompt only do the same and return the same. *)
Theorem analyze_image_ignores_the_prompt :
  ∀ (path_exists : list N → bool)
    (read_file : list N → outcome (list Byte.byte))
    (b64encode : list Byte.byte → list N)
    (create : list N → outcome completion)
    (image_data : image_input) (prompt1 prompt2 : list N) (w : world),
    analyze_image path_exists read_file b64encode create image_data prompt1 w
    = analyze_image path_exists read_file b64encode create image_data prompt2 w.
Proof. reflexivity. Qed.

(** A description that [analyze_image] returns is the text of the first
    choice of the model, asked once, with the image as a base64 data URL;
    the description is logged. *)
Theorem analyze_image_returns_the_first_choice :
  ∀ (path_exists : list N → bool)
    (read_file : list N → outcome (list Byte.byte))
    (b64encode : list Byte.byte → list N)
    (create : list N → outcome completion)
    (image_bytes : list Byte.byte) (prompt : list N) (w : world)
    (description : list N),
    (analyze_image path_exists read_file b64encode create
       (Bytes image_bytes) prompt w).1 = Done description →
    ∃ rest,
      create (py "data:image/jpeg;base64," ++ b64encode image_bytes)
      = Returns (mk_completion (mk_choice description :: rest))
      ∧ (analyze_image path_exists read_file b64encode create
           (Bytes image_bytes) prompt w).2
        = mk_world true
            (requested w
             ++ [py "data:image/jpeg;base64," ++ b64encode image_bytes])
            (logged w ++ [py "Generated image description: " ++ description]).
Proof.
  intros path_exists read_file b64encode create image_bytes prompt w d.
  unfold analyze_image, analyze, image_bytes_of.
  destruct image_bytes as [|b l]; [discriminate|].
  destruct (create _) as [[[|[first] rest]]|e]; try discriminate.
  cbn. intros [= <-]. now exists rest.
Qed.

Lemma analyze_image_returns_the_first_choice_witness :
  ∃ rest,
    (λ _ : list N, Returns (mk_completion [mk_choice (py "a cat")]))
      (py "data:image/jpeg;base64," ++ (λ _ : list Byte.byte, py "AAEC")
                                         [Byte.x00; Byte.x01; Byte.x02])
    = Returns (mk_completion (mk_choice (py "a cat") :: rest))
    ∧ (analyze_image (λ _, false) (λ _, Returns []) (λ _, py "AAEC")
         (λ _, Returns (mk_completion [mk_choice (py "a cat")]))
         (Bytes [Byte.x00; Byte.x01; Byte.x02]) [] (mk_world false [] [])).2
      = mk_world true
          ([] ++ [py "data:image/jpeg;base64,"
                  ++ (λ _ : list Byte.byte, py "AAEC")
                       [Byte.x00; Byte.x01; Byte.x02]])
          ([] ++ [py "Generated image description: " ++ py "a cat"]).
Proof.
  apply (analyze_image_returns_the_first_choice
           (λ _, false) (λ _, Returns []) (λ _, py "AAEC")
           (λ _, Returns (mk_completion [mk_choice (py "a cat")]))
           [Byte.x00; Byte.x01; Byte.x02] [] (mk_world false [] [])
           (py "a cat")).
  reflexivity.
Defined.

End AnalyzeImageMore.

(** ** The handlers of the chat interface *)

Section ChainlitMore.
Import Chainlit ChainlitWords.

Lemma last_cons_default {A : Type} (x : A) (l : list A) :
  last (x :: l) = Some (default x (last l)).
Proof.
  revert x. induction l as [|y l IH]; intros x; [reflexivity|].
  rewrite last_cons_cons, IH. reflexivity.
Qed.

Lemma attach_content
    (read_file : list N → outcome (list Byte.byte))
    (analyze_image : list Byte.byte → outcome (list N))
    (elems : list element) :
  ∀ (content : list N) (w : world) (content' : list N) (w' : world),
    attach read_file analyze_image elems content w = (Returns content', w') →
    content'
    = default content
        (analysis_text <$> last (analysed read_file analyze_image elems))
    ∧ sent w' = sent w ∧ streamed w' = streamed w
    ∧ thread_id w' = thread_id w ∧ graph_inputs w' = graph_inputs w.
Proof.
  induction elems as [|e rest IH]; intros content w content' w'.
  - intros [= <- <-]. now repeat split.
  - destruct e as [path|a|n]; cbn [attach]; try apply IH.
    unfold bind at 1, lift at 1.
    destruct (read_file path) as [image_bytes|e] eqn:Er; [|discriminate].
    unfold bind at 1, try_except, bind at 1, lift at 1.
    destruct (analyze_image image_bytes) as [description|e] eqn:Ea.
    + assert (E : analysed read_file analyze_image (Image path :: rest)
                  = description :: analysed read_file analyze_image rest).
      { unfold analysed. cbn. now rewrite Er, Ea. }
      cbn [ret]. intros H. apply IH in H as (-> & H).
      split; [|exact H]. rewrite E, last_cons_default.
      fold (analysis_text description).
      now destruct (last (analysed read_file analyze_image rest)).
    + assert (E : analysed read_file analyze_image (Image path :: rest)
                  = analysed read_file analyze_image rest).
      { unfold analysed. cbn. now rewrite Er, Ea. }
      unfold bind, modify, ret. intros H. apply IH in H as (-> & H).
      split; [now rewrite E|]. exact H.
Qed.



End ChainlitMore.

Section OnMessageMore.
Import Chainlit ChainlitWords.

Lemma bind_returns {W A B : Type} (m : M W A) (k : A → M W B) (w w' : W)
    (b : B) :
  bind m k w = (Returns b, w') →
  ∃ a w1, m w = (Returns a, w1) ∧ k a w1 = (Returns b, w').
Proof.
  unfold bind. destruct (m w) as [[a|e] w1]; [|discriminate].
  intros H. now exists a, w1.
Qed.

Lemma stream_text (chunks : list chunk) :
  ∀ (text : list N) (w : world) (text' : list N) (w' : world),
    stream chunks text w = (Returns text', w') →
    text' = text ++ concat (conversation_tokens chunks)
    ∧ streamed w' = streamed w ++ conversation_tokens chunks
    ∧ sent w' = sent w ∧ graph_inputs w' = graph_inputs w.
Proof.
  induction chunks as [|c rest IH]; intros text w text' w'.
  - intros [= <- <-]. unfold conversation_tokens. cbn.
    now rewrite !app_nil_r.
  - cbn [stream]. unfold conversation_tokens. cbn [List.filter].
    fold (conversation_tokens rest).
    intros H. apply bind_returns in H as (node & w1 & Hn & H).
    unfold lift in Hn. destruct (langgraph_node c) as [n|] eqn:En;
      [|discriminate]. cbn in Hn. injection Hn as <- <-.
    assert (Eb : bool_decide (Some n = Some "conversation_node")
                 = bool_decide (n = "conversation_node")).
    { apply bool_decide_ext. split; congruence. }
    rewrite Eb.
    destruct (bool_decide (n = "conversation_node")
              && is_AIMessageChunk c).
    + apply bind_returns in H as ([] & w2 & Hm & H).
      injection Hm as <-. apply IH in H as (-> & Hs & Ht & Hg).
      cbn [fmap list_fmap concat]. fold (conversation_tokens rest).
      cbn in Hs, Ht, Hg. rewrite Hs, Ht, Hg.
      now rewrite <- !app_assoc.
    + now apply IH in H.
Qed.

(** When [on_message] returns, it has sent one message, chosen by the
    workflow of the state read back: for "audio" the last message of the
    state with its audio, for "image" the last message with the image,
    and otherwise the texts that the conversation node streamed, joined
    in their order. *)
Theorem on_message_sends_one_message_by_workflow :
  ∀ (read_file : list N → outcome (list Byte.byte))
    (analyze_image : list Byte.byte → outcome (list N))
    (astream : list N → option Z → list chunk * option exn)
    (aget_state : option Z → outcome values)
    (message : Message) (w w' : world),
    on_message read_file analyze_image astream aget_state message w
    = (Returns tt, w') →
    ∃ input state out,
      graph_inputs w' = graph_inputs w ++ [(input, thread_id w)]
      ∧ aget_state (thread_id w) = Returns state
      ∧ sent w' = sent w ++ [out]
      ∧ streamed w'
        = streamed w ++ conversation_tokens (astream input (thread_id w)).1
      ∧ out
        = (if bool_decide (workflow state = Some "audio") then
             mk_message None
               (default [] (messages state ≫= last))
               [Audio (default [] (audio_buffer state))]
           else if bool_decide (workflow state = Some "image") then
             mk_message None
               (default [] (messages state ≫= last))
               [Image (default [] (image_path state))]
           else
             mk_message None
               (concat (conversation_tokens
                          (astream input (thread_id w)).1)) []).
Proof.
  intros read_file analyze_image astream aget_state message w w'.
  unfold on_message. intros H.
  apply bind_returns in H as (input & w1 & Ha & H).
  apply attach_content in Ha as (_ & Hs1 & Ht1 & Hth1 & Hg1).
  apply bind_returns in H as (thread & w2 & Hth & H).
  injection Hth as <- <-.
  apply bind_returns in H as ([] & w3 & Hm & H). injection Hm as <-.
  apply bind_returns in H as (text & w4 & Hst & H).
  apply stream_text in Hst as (-> & Ht4 & Hs4 & Hg4). cbn in Ht4, Hs4, Hg4.
  apply bind_returns in H as ([] & w5 & He & H).
  destruct ((astream input (thread_id w1)).2) as [e|]; [discriminate|].
  injection He as <-.
  apply bind_returns in H as (st0 & w6 & Hg & H).
  unfold lift in Hg. destruct (aget_state (thread_id w1)) as [state|] eqn:Est;
    [|discriminate]. injection Hg as <- <-.
  rewrite Hth1 in *.
  exists input, state.
  destruct (bool_decide (workflow state = Some "audio")).
  - apply bind_returns in H as (response & w7 & Hr & H).
    apply bind_returns in H as (audio & w8 & Hau & H).
    unfold lift, last_content, last_item, item in Hr, Hau.
    destruct (messages state) as [l|]; [|discriminate].
    destruct (last l) as [x|] eqn:El; [|discriminate].
    destruct (audio_buffer state) as [a|]; [|discriminate].
    injection Hr as <- <-. injection Hau as <- <-. injection H as <-.
    eexists. cbn. rewrite Hs4, Ht4, Hg4, Hs1, Ht1, Hg1, ?Hth1, El.
    now repeat split.
  - destruct (bool_decide (workflow state = Some "image")).
    + apply bind_returns in H as (response & w7 & Hr & H).
      apply bind_returns in H as (path & w8 & Hp & H).
      unfold lift, last_content, last_item, item in Hr, Hp.
      destruct (messages state) as [l|]; [|discriminate].
      destruct (last l) as [x|] eqn:El; [|discriminate].
      destruct (image_path state) as [a|]; [|discriminate].
      injection Hr as <- <-. injection Hp as <- <-. injection H as <-.
      eexists. cbn. rewrite Hs4, Ht4, Hg4, Hs1, Ht1, Hg1, ?Hth1, El.
    now repeat split.
    + injection H as <-.
      eexists. cbn. rewrite Hs4, Ht4, Hg4, Hs1, Ht1, Hg1, ?Hth1.
      now repeat split.
Qed.

End OnMessageMore.

Section OnMessageWitness.
Import Chainlit ChainlitWords.

Lemma on_message_sends_one_message_by_workflow_witness :
  ∃ input state out,
    graph_inputs
      (on_message (λ _, Returns []) (λ _, Returns [])
         (λ _ _, ([mk_chunk (py "Hel") true (Some "conversation_node");
                   mk_chunk (py "route") true (Some "router_node");
                   mk_chunk (py "lo") true (Some "conversation_node")], None))
         (λ _, Returns (mk_values (Some "conversation") (Some [py "Hello"])
                          None None))
         (mk_message None (py "hi") [])
         (mk_world (Some 1%Z) None None [] [] [] []
            (Speech.mk_world false []))).2
    = [] ++ [(input, Some 1%Z)]
    ∧ (λ _ : option Z,
         Returns (mk_values (Some "conversation") (Some [py "Hello"])
                    None None)) (Some 1%Z)
      = Returns state
    ∧ sent
        (on_message (λ _, Returns []) (λ _, Returns [])
           (λ _ _, ([mk_chunk (py "Hel") true (Some "conversation_node");
                     mk_chunk (py "route") true (Some "router_node");
                     mk_chunk (py "lo") true (Some "conversation_node")], None))
           (λ _, Returns (mk_values (Some "conversation") (Some [py "Hello"])
                            None None))
           (mk_message None (py "hi") [])
           (mk_world (Some 1%Z) None None [] [] [] []
              (Speech.mk_world false []))).2
      = [] ++ [out]
    ∧ out = mk_message None (py "Hello") [].
Proof.
  destruct (on_message_sends_one_message_by_workflow
              (λ _, Returns []) (λ _, Returns [])
              (λ _ _, ([mk_chunk (py "Hel") true (Some "conversation_node");
                        mk_chunk (py "route") true (Some "router_node");
                        mk_chunk (py "lo") true (Some "conversation_node")],
                       None))
              (λ _, Returns (mk_values (Some "conversation")
                               (Some [py "Hello"]) None None))
              (mk_message None (py "hi") [])
              (mk_world (Some 1%Z) None None [] [] [] []
                 (Speech.mk_world false []))
              _ eq_refl)
    as (input & state & out & H1 & H2 & H3 & _ & H5).
  exists input, state, out. split; [exact H1|]. split; [exact H2|].
  split; [exact H3|]. injection H2 as <-. exact H5.
Defined.

End OnMessageWitness.

Section AudioMore.
Import Chainlit ChainlitWords.

Lemma write_at_end (b : BytesIO) (d : list Byte.byte) :
  pos b = length (value b) →
  write b d = mk_buffer (name b) (value b ++ d) (length (value b ++ d)).
Proof.
  intros Hp. unfold write. rewrite Hp, Nat.sub_diag, take_ge by lia.
  rewrite drop_ge by lia. cbn [replicate app].
  now rewrite app_nil_r, length_app.
Qed.

Lemma feed_appends (rest : list InputAudioChunk) :
  ∀ (w : world) (b : BytesIO),
    session_audio_buffer w = Some b → pos b = length (value b) →
    Forall (λ c, isStart c = false) rest →
    ∃ w',
      feed rest w = (Returns tt, w')
      ∧ session_audio_buffer w'
        = Some (mk_buffer (name b) (value b ++ concat (data <$> rest))
                  (length (value b ++ concat (data <$> rest))))
      ∧ mime_type w' = mime_type w ∧ sent w' = sent w.
Proof.
  induction rest as [|c rest IH]; intros w b Hb Hp Hr.
  - exists w. cbn. rewrite app_nil_r, <- Hp. now destruct b.
  - inversion Hr as [|? ? Hc Hrest]; subst.
    cbn [feed]. unfold bind at 1, on_audio_chunk. rewrite Hc.
    unfold bind, ret, modify. rewrite Hb. cbv iota beta.
    rewrite write_at_end by exact Hp.
    edestruct (IH (set_audio_buffer
                     (mk_buffer (name b) (value b ++ data c)
                        (length (value b ++ data c))) w))
      as (w' & Hf & Hbuf & Hm & Hs); [reflexivity|reflexivity|exact Hrest|].
    exists w'. split; [exact Hf|]. cbn in Hbuf, Hm, Hs.
    rewrite Hbuf, Hm, Hs. cbn [fmap list_fmap concat].
    now rewrite <- !app_assoc.
Qed.

(** A recording that begins with a start chunk whose type has a subtype,
    followed by chunks that are no start, leaves in the session a buffer
    named after the subtype that holds the data of the chunks joined in
    their order, whatever buffer the session held before; the type of
    the start chunk is kept as well. *)
Theorem recording_holds_the_chunks_joined :
  ∀ (start : InputAudioChunk) (rest : list InputAudioChunk)
    (extension : list N) (w : world),
    isStart start = true →
    subtype (mimeType start) = Returns extension →
    Forall (λ c, isStart c = false) rest →
    ∃ w',
      feed (start :: rest) w = (Returns tt, w')
      ∧ session_audio_buffer w'
        = Some (mk_buffer (Some (py "input_audio." ++ extension))
                  (concat (data <$> start :: rest))
                  (length (concat (data <$> start :: rest))))
      ∧ mime_type w' = Some (mimeType start)
      ∧ sent w' = sent w.
Proof.
  intros start rest ext w Hs He Hr.
  cbn [feed]. unfold bind at 1, on_audio_chunk. rewrite Hs.
  unfold bind, lift, ret, modify. rewrite He. cbv iota beta.
  cbn [session_audio_buffer set_mime_type set_audio_buffer].
  rewrite write_at_end by reflexivity. cbn [name value app].
  edestruct (feed_appends rest) as (w' & Hf & Hbuf & Hm & Hsent);
    [| |exact Hr|exists w'; split; [exact Hf|]].
  - reflexivity.
  - reflexivity.
  - cbn in Hbuf, Hm, Hsent. now rewrite Hbuf, Hm, Hsent.
Qed.

Lemma recording_holds_the_chunks_joined_witness :
  ∃ w',
    feed [mk_audio_chunk true (py "audio/webm") [Byte.x01];
          mk_audio_chunk false (py "audio/webm") [Byte.x02; Byte.x03]]
      (mk_world None (Some (mk_buffer None [Byte.xff] 1)) None [] [] [] []
         (Speech.mk_world false []))
    = (Returns tt, w')
    ∧ session_audio_buffer w'
      = Some (mk_buffer (Some (py "input_audio." ++ py "webm"))
                (concat (data <$>
                   [mk_audio_chunk true (py "audio/webm") [Byte.x01];
                    mk_audio_chunk false (py "audio/webm")
                      [Byte.x02; Byte.x03]]))
                (length (concat (data <$>
                   [mk_audio_chunk true (py "audio/webm") [Byte.x01];
                    mk_audio_chunk false (py "audio/webm")
                      [Byte.x02; Byte.x03]]))))
    ∧ mime_type w' = Some (mimeType (mk_audio_chunk true (py "audio/webm")
                                       [Byte.x01]))
    ∧ sent w' = sent (mk_world None (Some (mk_buffer None [Byte.xff] 1)) None
                        [] [] [] [] (Speech.mk_world false [])).
Proof.
  apply (recording_holds_the_chunks_joined
           (mk_audio_chunk true (py "audio/webm") [Byte.x01])
           [mk_audio_chunk false (py "audio/webm") [Byte.x02; Byte.x03]]
           (py "webm")).
  - reflexivity.
  - reflexivity.
  - repeat constructor.
Defined.

(** A chunk that is no start and finds no buffer in the session raises
    [AttributeError]; a start chunk whose type has no slash raises
    [IndexError]; either way the world is as it was. *)
Theorem audio_chunk_without_buffer_or_subtype_raises :
  ∀ (c : InputAudioChunk) (w : world),
    (isStart c = false → session_audio_buffer w = None →
     on_audio_chunk c w
     = (Raises (AttributeError "'NoneType' object has no attribute 'write'"),
        w))
    ∧ (isStart c = true → 47%N ∉ mimeType c →
       on_audio_chunk c w
       = (Raises (IndexError "list index out of range"), w)).
Proof.
  intros c w. unfold on_audio_chunk, bind, lift, ret. split.
  - intros Hs Hb. now rewrite Hs, Hb.
  - intros Hs Hm. rewrite Hs. unfold subtype.
    now rewrite split_plain by exact Hm.
Qed.

Lemma audio_chunk_without_buffer_or_subtype_raises_witness :
  on_audio_chunk (mk_audio_chunk false (py "audio/webm") [Byte.x01])
    (mk_world None None None [] [] [] [] (Speech.mk_world false []))
  = (Raises (AttributeError "'NoneType' object has no attribute 'write'"),
     mk_world None None None [] [] [] [] (Speech.mk_world false [])).
Proof.
  apply (proj1 (audio_chunk_without_buffer_or_subtype_raises
                  (mk_audio_chunk false (py "audio/webm") [Byte.x01])
                  (mk_world None None None [] [] [] []
                     (Speech.mk_world false [])))); reflexivity.
Defined.

End AudioMore.

Section AudioEndMore.
Import Chainlit ChainlitWords.

Lemma synthesize_invalid
    (convert : list N → outcome (list (list Byte.byte))) (text : list N)
    (sw : Speech.world) :
  blank text ∨ (len text > 5000)%Z →
  ∃ msg, Speech.synthesize convert text sw = (Raises (Py.ValueError msg), sw).
Proof.
  intros [Hb|Hl].
  - eexists. now apply synthesize_blank.
  - unfold Speech.synthesize. destruct (falsy (strip text)); [now eexists|].
    apply Z.gtb_gt in Hl. rewrite Hl. now eexists.
Qed.

(** A voice message is answered in this order: the recording is sent
    back to the user as the message "You", it is transcribed, the
    transcription goes through the graph, the last message of the state
    is synthesized, and that message is sent with the audio.  When the
    last message can be spoken and the service yields audio, these two
    messages are all that is sent. *)
Theorem voice_message_is_echoed_then_answered_with_audio :
  ∀ (transcribe : list Byte.byte → outcome (list N))
    (ainvoke : list N → option Z → outcome values)
    (convert : list N → outcome (list (list Byte.byte)))
    (elems : list element) (w : world) (buffer : BytesIO)
    (transcription : list N) (state : values) (reply : list N)
    (chunks : list (list Byte.byte)),
    session_audio_buffer w = Some buffer →
    transcribe (value buffer) = Returns transcription →
    ainvoke transcription (thread_id w) = Returns state →
    last_content state = Returns reply →
    ¬ blank reply → (len reply <= 5000)%Z →
    convert reply = Returns chunks → concat chunks ≠ [] →
    ∃ w',
      on_audio_end transcribe ainvoke convert elems w = (Returns tt, w')
      ∧ sent w'
        = sent w
          ++ [mk_message (Some "You") [] (Audio (value buffer) :: elems);
              mk_message None reply [Audio (concat chunks)]]
      ∧ graph_inputs w' = graph_inputs w ++ [(transcription, thread_id w)]
      ∧ Speech.converted (speech w')
        = Speech.converted (speech w) ++ [reply].
Proof.
  intros transcribe ainvoke convert elems w buffer tr state reply chunks
    Hb Ht Ha Hl Hnb Hlen Hc Hne.
  unfold on_audio_end. unfold bind at 1. rewrite Hb. cbv iota beta.
  unfold read, seek0. cbn [fst snd pos value name]. rewrite !drop_0.
  unfold bind, modify, lift, ret. rewrite Ht. cbv iota beta.
  cbn [thread_id add_sent set_audio_buffer add_graph_input].
  rewrite Ha, Hl. cbv iota beta.
  unfold synthesize. rewrite synthesize_valid by assumption. rewrite Hc.
  destruct (concat chunks) as [|x l] eqn:E; [congruence|].
  cbn. eexists. split; [reflexivity|]. cbn.
  rewrite <- !app_assoc. now repeat split.
Qed.

Lemma voice_message_is_echoed_then_answered_with_audio_witness :
  ∃ w',
    on_audio_end (λ _, Returns (py "hello")) (λ _ _, Returns (mk_values None
        (Some [py "hello"; py "Hi there"]) None None))
      (λ _, Returns [[Byte.x01]; [Byte.x02]]) []
      (mk_world (Some 1%Z) (Some (mk_buffer None [Byte.x07] 1)) None
         [] [] [] [] (Speech.mk_world false []))
    = (Returns tt, w')
    ∧ sent w'
      = [] ++ [mk_message (Some "You") [] [Audio [Byte.x07]];
               mk_message None (py "Hi there")
                 [Audio (concat [[Byte.x01]; [Byte.x02]])]]
    ∧ graph_inputs w' = [] ++ [(py "hello", Some 1%Z)]
    ∧ Speech.converted (speech w') = [] ++ [py "Hi there"].
Proof.
  apply (voice_message_is_echoed_then_answered_with_audio
           (λ _, Returns (py "hello"))
           (λ _ _, Returns (mk_values None
              (Some [py "hello"; py "Hi there"]) None None))
           (λ _, Returns [[Byte.x01]; [Byte.x02]]) []
           (mk_world (Some 1%Z) (Some (mk_buffer None [Byte.x07] 1)) None
              [] [] [] [] (Speech.mk_world false []))
           (mk_buffer None [Byte.x07] 1) (py "hello")
           (mk_values None (Some [py "hello"; py "Hi there"]) None None)
           (py "Hi there") [[Byte.x01]; [Byte.x02]]).
  - reflexivity.
  - reflexivity.
  - reflexivity.
  - reflexivity.
  - intros Hb. apply falsy_strip in Hb. vm_compute in Hb. discriminate Hb.
  - vm_compute. discriminate.
  - reflexivity.
  - discriminate.
Defined.

(** When the last message of the state is blank or longer than 5000
    characters, [on_audio_end] raises the [ValueError] of [synthesize]
    after the graph has run: the user has got the echo of the recording
    and no answer, and the speech service was not called. *)
Theorem voice_reply_that_cannot_be_spoken_is_lost :
  ∀ (transcribe : list Byte.byte → outcome (list N))
    (ainvoke : list N → option Z → outcome values)
    (convert : list N → outcome (list (list Byte.byte)))
    (elems : list element) (w : world) (buffer : BytesIO)
    (transcription : list N) (state : values) (reply : list N),
    session_audio_buffer w = Some buffer →
    transcribe (value buffer) = Returns transcription →
    ainvoke transcription (thread_id w) = Returns state →
    last_content state = Returns reply →
    blank reply ∨ (len reply > 5000)%Z →
    ∃ msg w',
      on_audio_end transcribe ainvoke convert elems w
      = (Raises (Py.ValueError msg), w')
      ∧ sent w'
        = sent w
          ++ [mk_message (Some "You") [] (Audio (value buffer) :: elems)]
      ∧ graph_inputs w' = graph_inputs w ++ [(transcription, thread_id w)]
      ∧ speech w' = speech w.
Proof.
  intros transcribe ainvoke convert elems w buffer tr state reply
    Hb Ht Ha Hl Hbad.
  unfold on_audio_end. unfold bind at 1. rewrite Hb. cbv iota beta.
  unfold read, seek0. cbn [fst snd pos value name]. rewrite !drop_0.
  unfold bind, modify, lift, ret. rewrite Ht. cbv iota beta.
  cbn [thread_id add_sent set_audio_buffer add_graph_input].
  rewrite Ha, Hl. cbv iota beta.
  unfold synthesize.
  match goal with
  | |- context [Speech.synthesize convert reply ?sw] =>
      destruct (synthesize_invalid convert reply sw Hbad) as [msg Hs];
      rewrite Hs
  end.
  cbn.
  exists msg. eexists. split; [reflexivity|]. now repeat split.
Qed.

Lemma voice_reply_that_cannot_be_spoken_is_lost_witness :
  ∃ msg w',
    on_audio_end (λ _, Returns (py "hm")) (λ _ _, Returns (mk_values None
        (Some [py "hm"; py "  "]) None None))
      (λ _, Returns [[Byte.x01]]) []
      (mk_world (Some 1%Z) (Some (mk_buffer None [Byte.x07] 1)) None
         [] [] [] [] (Speech.mk_world false []))
    = (Raises (Py.ValueError msg), w')
    ∧ sent w' = [] ++ [mk_message (Some "You") [] [Audio [Byte.x07]]]
    ∧ graph_inputs w' = [] ++ [(py "hm", Some 1%Z)]
    ∧ speech w' = Speech.mk_world false [].
Proof.
  apply (voice_reply_that_cannot_be_spoken_is_lost
           (λ _, Returns (py "hm"))
           (λ _ _, Returns (mk_values None (Some [py "hm"; py "  "]) None None))
           (λ _, Returns [[Byte.x01]]) []
           (mk_world (Some 1%Z) (Some (mk_buffer None [Byte.x07] 1)) None
              [] [] [] [] (Speech.mk_world false []))
           (mk_buffer None [Byte.x07] 1) (py "hm")
           (mk_values None (Some [py "hm"; py "  "]) None None) (py "  ")).
  - reflexivity.
  - reflexivity.
  - reflexivity.
  - reflexivity.
  - left. repeat constructor.
Defined.

End AudioEndMore.

(** ** Witnesses and [download_media] *)

Section MoreWitnesses.
Import Telegram.


(** Media that [download_media] returns is the content of the second of
    two requests: the first asks [getFile] for the file id and must
    answer with a body that holds a path under "results" and "file_path";
    the second fetches the file at that path, with no parameters. *)
Theorem download_media_fetches_the_path_it_is_told :
  ∀ (http_get : url → option json → outcome (outcome json * list Byte.byte))
    (media_id : json) (log : list event) (media : list Byte.byte),
    (download_media http_get media_id log).1 = Returns media →
    ∃ metadata results media_path raw body,
      http_get getFile (Some media_id) = Returns (Returns metadata, raw)
      ∧ getitem metadata "results" = Returns results
      ∧ getitem results "file_path" = Returns media_path
      ∧ http_get (file media_path) None = Returns (body, media)
      ∧ (download_media http_get media_id log).2
        = log ++ [Get getFile (Some media_id); Get (file media_path) None].
Proof.
  intros http_get media_id log media.
  unfold download_media, fetch, emit, modify, bind, lift, ret.
  destruct (http_get getFile (Some media_id)) as [[[metadata|e] raw]|e];
    try discriminate.
  cbn [fst snd].
  destruct (getitem metadata "results") as [results|e] eqn:E1;
    [|discriminate].
  destruct (getitem results "file_path") as [media_path|e] eqn:E2;
    [|discriminate].
  destruct (http_get (file media_path) None) as [[body content]|e] eqn:E;
    [|discriminate].
  cbn. intros [= <-].
  exists metadata, results, media_path, raw, body.
  rewrite <- app_assoc. now repeat split.
Qed.

Lemma download_media_fetches_the_path_it_is_told_witness :
  ∃ metadata results media_path raw body,
    (λ (u : url) (_ : option json),
       match u with
       | getFile =>
           Returns (Returns (JObj [("results",
                                    JObj [("file_path", JStr (py "a.jpg"))])]),
                    [])
       | _ => Returns (Raises (Failure "not JSON"), [Byte.x09])
       end) getFile (Some (JStr (py "id7")))
    = Returns (Returns metadata, raw)
    ∧ getitem metadata "results" = Returns results
    ∧ getitem results "file_path" = Returns media_path
    ∧ (λ (u : url) (_ : option json),
         match u with
         | getFile =>
             Returns (Returns (JObj [("results",
                                      JObj [("file_path", JStr (py "a.jpg"))])]),
                      [])
         | _ => Returns (Raises (Failure "not JSON"), [Byte.x09])
         end) (file media_path) None
      = Returns (body, [Byte.x09])
    ∧ (download_media
         (λ (u : url) (_ : option json),
            match u with
            | getFile =>
                Returns (Returns (JObj [("results",
                                         JObj [("file_path",
                                                JStr (py "a.jpg"))])]),
                         [])
            | _ => Returns (Raises (Failure "not JSON"), [Byte.x09])
            end) (JStr (py "id7")) []).2
      = [] ++ [Get getFile (Some (JStr (py "id7")));
               Get (file media_path) None].
Proof.
  apply (download_media_fetches_the_path_it_is_told
           (λ (u : url) (_ : option json),
              match u with
              | getFile =>
                  Returns (Returns (JObj [("results",
                                           JObj [("file_path",
                                                  JStr (py "a.jpg"))])]),
                           [])
              | _ => Returns (Raises (Failure "not JSON"), [Byte.x09])
              end) (JStr (py "id7")) [] [Byte.x09]).
  reflexivity.
Defined.

End MoreWitnesses.

Section EnvWitness.
Import Env.

Lemma validate_env_vars_passes_iff_all_are_set_witness :
  ∃ missing,
    ValueError "Missing required environment variables: GEMINI_API_KEY"
    = ValueError
        ("Missing required environment variables: " ++ join missing)%string
    ∧ missing ≠ []
    ∧ sublist missing TextToImage_REQUIRED_ENV_VARS
    ∧ ∀ var,
        var ∈ missing
        ↔ var ∈ TextToImage_REQUIRED_ENV_VARS
          ∧ ((λ v : string, if bool_decide (v = "GROQ_API_KEY")
                            then Some (py "gsk") else Some []) var = None
             ∨ (λ v : string, if bool_decide (v = "GROQ_API_KEY")
                              then Some (py "gsk") else Some []) var
               = Some []).
Proof.
  apply (proj2 (validate_env_vars_passes_iff_all_are_set
                  (λ v : string, if bool_decide (v = "GROQ_API_KEY")
                                 then Some (py "gsk") else Some [])
                  TextToImage_REQUIRED_ENV_VARS)).
  reflexivity.
Defined.

End EnvWitness.

Section AnalyzeWitness.
Import ImageToText.

Lemma analyze_image_raises_only_ImageToTextError_witness :
  analyze_image (λ _, false) (λ _, Returns []) (λ _, []) (λ _, Raises (Failure "x"))
    (Path (py "cat.png")) [] (mk_world false [] [])
  = (Raised (ImageToTextError
               (py "Failed to analyze image: Image file not found: "
                ++ py "cat.png")),
     mk_world false [] []).
Proof.
  apply (proj2 (proj2 (analyze_image_raises_only_ImageToTextError
                         (λ _, false) (λ _, Returns []) (λ _, [])
                         (λ _, Raises (Failure "x"))
                         (Path (py "cat.png")) [] (mk_world false [] [])))).
  reflexivity.
Defined.

End AnalyzeWitness.

(** ** What the webhook does to the outside *)

Section ProcessUpdateMore.
Import Telegram TelegramWords Effects.

Lemma lift_returns {W A : Type} (o : outcome A) (w w' : W) (a : A) :
  lift o w = (Returns a, w') → o = Returns a ∧ w' = w.
Proof. unfold lift. now intros [= -> ->]. Qed.

Lemma emit_returns (e : event) (log log' : list event) (u : unit) :
  emit e log = (Returns u, log') → log' = log ++ [e].
Proof. unfold emit, modify. now intros [= _ <-]. Qed.

(** Inverts the first step of a computation that returned. *)
Ltac returned H :=
  let a := fresh "a" in
  let w := fresh "w" in
  let H1 := fresh "H" in
  lazymatch type of H with
  | bind (lift _) _ _ = _ =>
      apply bind_returns in H; destruct H as (a & w & H1 & H);
      apply lift_returns in H1; destruct H1 as [H1 ->]; cbv beta in H
  | bind (emit _) _ _ = _ =>
      apply bind_returns in H; destruct H as (a & w & H1 & H);
      apply emit_returns in H1; subst w; clear a; cbv beta in H
  | bind _ _ _ = _ =>
      apply bind_returns in H; destruct H as (a & w & H1 & H); cbv beta in H
  | lift _ _ = _ => apply lift_returns in H; destruct H as [H ->]
  end.

Lemma fetch_returns
    (http_get : url → option json → outcome (outcome json * list Byte.byte))
    (file_id : json) (params_again : bool) (log log' : list event)
    (media : list Byte.byte) :
  fetch http_get file_id params_again log = (Returns media, log') →
  ∃ metadata results media_path raw body,
    http_get getFile (Some file_id) = Returns (Returns metadata, raw)
    ∧ getitem metadata "results" = Returns results
    ∧ getitem results "file_path" = Returns media_path
    ∧ http_get (file media_path)
        (if params_again then Some file_id else None)
      = Returns (body, media)
    ∧ log' = log ++ [Get getFile (Some file_id);
                     Get (file media_path)
                       (if params_again then Some file_id else None)].
Proof.
  unfold fetch. intros H.
  do 7 returned H.
  destruct a as [[metadata|e] raw]; [|discriminate].
  cbn in H1. injection H1 as ->.
  destruct a3 as [body content]. injection H as <- <-.
  exists a0, a1, a2, raw, body. rewrite <- app_assoc. now repeat split.
Qed.

(** A transcription that [process_audio_message] returns is that of the
    content of the second of two requests: the first asks [getFile] for
    the file id of the audio, the second fetches the file at the path
    answered, passing the file id as parameters once more; nothing else
    is done. *)
Theorem process_audio_message_transcribes_the_file_fetched :
  ∀ (http_get : url → option json → outcome (outcome json * list Byte.byte))
    (transcribe : list Byte.byte → outcome (list N))
    (msg_dict : json) (log log' : list event) (text : list N),
    process_audio_message http_get transcribe msg_dict log
    = (Returns text, log') →
    ∃ audio audio_id metadata results media_path raw body audio_data,
      getitem msg_dict "audio" = Returns audio
      ∧ getitem audio "file_id" = Returns audio_id
      ∧ http_get getFile (Some audio_id) = Returns (Returns metadata, raw)
      ∧ getitem metadata "results" = Returns results
      ∧ getitem results "file_path" = Returns media_path
      ∧ http_get (file media_path) (Some audio_id)
        = Returns (body, audio_data)
      ∧ transcribe audio_data = Returns text
      ∧ log' = log ++ [Get getFile (Some audio_id);
                       Get (file media_path) (Some audio_id);
                       Transcribe audio_data].
Proof.
  intros http_get transcribe msg_dict log log' text H.
  unfold process_audio_message in H.
  do 4 returned H. returned H.
  apply fetch_returns in H2
    as (metadata & results & media_path & raw & body & ? & ? & ? & ? & ->).
  exists a, a0, metadata, results, media_path, raw, body, a1.
  rewrite <- app_assoc. now repeat split.
Qed.

Lemma process_audio_message_transcribes_the_file_fetched_witness :
  ∃ audio audio_id metadata results media_path raw body audio_data,
    getitem (JObj [("audio", JObj [("file_id", JStr (py "id7"))])]) "audio"
    = Returns audio
    ∧ getitem audio "file_id" = Returns audio_id
    ∧ (λ (u : url) (_ : option json),
         match u with
         | getFile =>
             Returns (Returns (JObj [("results",
                                      JObj [("file_path",
                                             JStr (py "a.ogg"))])]),
                      [])
         | _ => Returns (Raises (Failure "not JSON"), [Byte.x09])
         end) getFile (Some audio_id)
      = Returns (Returns metadata, raw)
    ∧ getitem metadata "results" = Returns results
    ∧ getitem results "file_path" = Returns media_path
    ∧ (λ (u : url) (_ : option json),
         match u with
         | getFile =>
             Returns (Returns (JObj [("results",
                                      JObj [("file_path",
                                             JStr (py "a.ogg"))])]),
                      [])
         | _ => Returns (Raises (Failure "not JSON"), [Byte.x09])
         end) (file media_path) (Some audio_id)
      = Returns (body, audio_data)
    ∧ (λ _ : list Byte.byte, Returns (py "hello")) audio_data
      = Returns (py "hello")
    ∧ [Get getFile (Some (JStr (py "id7")));
       Get (file (JStr (py "a.ogg"))) (Some (JStr (py "id7")));
       Transcribe [Byte.x09]]
      = [] ++ [Get getFile (Some audio_id);
               Get (file media_path) (Some audio_id);
               Transcribe audio_data].
Proof.
  apply (process_audio_message_transcribes_the_file_fetched
           (λ (u : url) (_ : option json),
              match u with
              | getFile =>
                  Returns (Returns (JObj [("results",
                                           JObj [("file_path",
                                                  JStr (py "a.ogg"))])]),
                           [])
              | _ => Returns (Raises (Failure "not JSON"), [Byte.x09])
              end)
           (λ _ : list Byte.byte, Returns (py "hello"))
           (JObj [("audio", JObj [("file_id", JStr (py "id7"))])]) []
           [Get getFile (Some (JStr (py "id7")));
            Get (file (JStr (py "a.ogg"))) (Some (JStr (py "id7")));
            Transcribe [Byte.x09]]
           (py "hello")).
  reflexivity.
Defined.










End ProcessUpdateMore.
